(** * Taurus line-edit widgets: a shallow embedding of
      [lib/taurus/qt/qtgui/input/tauruslineedit.py]

    The module holds three classes: [_PintValidator] (a [QValidator] for pint
    quantities), [TaurusValueLineEdit] and [TaurusConfigLineEdit].  Their
    methods are embedded below as functions over explicit widget records.
    Python exceptions are carried by a [result] type, the calls a method makes
    to inherited Qt / Taurus methods whose bodies live elsewhere are recorded
    in a log, and the two external libraries (pint and the Taurus model
    objects) are interfaces given as type classes. *)

From Stdlib Require Import ZArith List String Ascii Bool Lia.
From Stdlib Require Import Floats.SpecFloat.
Import ListNotations.

Set Implicit Arguments.

(* ================================================================== *)
(** ** A fragment of the Python runtime *)
(* ================================================================== *)

Module Py.

(** The exception classes that the module names or that its bare
    [except:] clauses swallow. *)
Inductive exn : Type :=
| DimensionalityError
| AttributeError
| TypeError
| ValueError
| RuntimeError
| OtherError (class_name : string).

Definition exn_eqb (a b : exn) : bool :=
  match a, b with
  | DimensionalityError, DimensionalityError => true
  | AttributeError, AttributeError => true
  | TypeError, TypeError => true
  | ValueError, ValueError => true
  | RuntimeError, RuntimeError => true
  | OtherError x, OtherError y => String.eqb x y
  | _, _ => false
  end.

(** The outcome of evaluating an expression: a value or a raised
    exception. *)
Inductive result (A : Type) : Type :=
| Ok (a : A)
| Raise (e : exn).
Arguments Ok {A} a.
Arguments Raise {A} e.

Definition bind {A B} (r : result A) (k : A -> result B) : result B :=
  match r with
  | Ok a => k a
  | Raise e => Raise e
  end.

(** [try: body / except: handler] (the bare clause catches everything). *)
Definition try_except {A} (body : result A) (handler : result A) : result A :=
  match body with
  | Ok a => Ok a
  | Raise _ => handler
  end.

(** [try: body / except cls: handler]: only [cls] is caught, every other
    exception propagates. *)
Definition try_except_cls {A} (body : result A) (cls : exn)
           (handler : result A) : result A :=
  match body with
  | Ok a => Ok a
  | Raise e => if exn_eqb e cls then handler else Raise e
  end.

(** *** Floats

    A Python [float] is an IEEE 754 binary64 number; it is represented by
    the standard library's [spec_float] at precision 53 and [emax] 1024. *)
Definition float : Type := spec_float.
Definition prec : Z := 53.
Definition emax : Z := 1024.

Definition inf : float := S754_infinity false.      (* float("inf")  *)
Definition neg_inf : float := S754_infinity true.   (* -float("inf") *)
Definition nan : float := S754_nan.

Definition float_lt (a b : float) : bool := SFltb a b.   (* a <  b *)
Definition float_le (a b : float) : bool := SFleb a b.   (* a <= b *)
Definition float_eq (a b : float) : bool := SFeqb a b.   (* a == b *)
Definition float_mul (a b : float) : float := SFmul prec emax a b.
Definition float_of_int (z : Z) : float := binary_normalize prec emax z 0 false.
Definition is_nan (a : float) : bool :=
  match a with S754_nan => true | _ => false end.

(** The literal [.1]: the binary64 number nearest to one tenth,
    [0x1.999999999999ap-4]. *)
Definition point_one : float := S754_finite false 7205759403792794 (-56).

(** *** Numbers produced by the step arithmetic: [int] or [float]. *)
Inductive num : Type :=
| Int (z : Z)
| Float (f : float).

Definition to_float (n : num) : float :=
  match n with
  | Int z => float_of_int z
  | Float f => f
  end.

(** [a * b]: integer product on two ints, float product otherwise. *)
Definition mul (a b : num) : num :=
  match a, b with
  | Int x, Int y => Int (x * y)
  | _, _ => Float (float_mul (to_float a) (to_float b))
  end.

(** [a / b] on two ints with a positive literal divisor: the module is
    Python 2 code without [from __future__ import division], so [/] on
    ints is floor division; [Z.div] rounds the same way. *)
Definition int_div (a b : Z) : Z := (a / b)%Z.

(** *** Byte strings (Python 2 [str]) *)

(** [c in s] for a one-character [c]. *)
Fixpoint contains (c : ascii) (s : string) : bool :=
  match s with
  | EmptyString => false
  | String a s' => Ascii.eqb a c || contains c s'
  end.

(** [s.rfind(c)] for a one-character needle: the highest index at which
    [c] occurs, or [-1]. *)
Fixpoint rfind_from (c : ascii) (s : string) (i last : Z) : Z :=
  match s with
  | EmptyString => last
  | String a s' =>
      rfind_from c s' (i + 1) (if Ascii.eqb a c then i else last)
  end.
Definition rfind (c : ascii) (s : string) : Z := rfind_from c s 0 (-1).

Fixpoint drop (n : nat) (s : string) : string :=
  match n, s with
  | O, _ => s
  | S n', String _ s' => drop n' s'
  | S _, EmptyString => EmptyString
  end.

(** [s[k:]]: a negative [k] counts from the end, and indices are clipped
    to the string. *)
Definition slice_from (k : Z) (s : string) : string :=
  let len := Z.of_nat (String.length s) in
  let start := if (k <? 0)%Z then Z.max (len + k) 0 else Z.min k len in
  drop (Z.to_nat start) s.

(** [s.lower()] on a byte string: the ASCII capitals are mapped to small
    letters and every other byte is kept. *)
Definition lower_ascii (a : ascii) : ascii :=
  let n := nat_of_ascii a in
  if andb (Nat.leb 65 n) (Nat.leb n 90) then ascii_of_nat (n + 32) else a.
Fixpoint lower (s : string) : string :=
  match s with
  | EmptyString => EmptyString
  | String a s' => String (lower_ascii a) (lower s')
  end.

(** [s.strip()]: leading and trailing whitespace removed. *)
Definition is_space (a : ascii) : bool :=
  let n := nat_of_ascii a in
  orb (Nat.eqb n 32) (andb (Nat.leb 9 n) (Nat.leb n 13)).
Fixpoint lstrip (s : string) : string :=
  match s with
  | EmptyString => EmptyString
  | String a s' => if is_space a then lstrip s' else s
  end.
Fixpoint rstrip (s : string) : string :=
  match s with
  | EmptyString => EmptyString
  | String a s' =>
      match rstrip s' with
      | EmptyString => if is_space a then EmptyString else String a EmptyString
      | r => String a r
      end
  end.
Definition strip (s : string) : string := rstrip (lstrip s).

End Py.

Import Py.

Notation "x <- c1 ;; c2" := (Py.bind c1 (fun x => c2))
  (at level 61, c1 at next level, right associativity).

(* ================================================================== *)
(** ** The libraries the module imports *)
(* ================================================================== *)

(** [taurus.external.qt.Qt]: the enumerations and flags the module reads. *)
Module Qt.

(** [QValidator.State]. *)
Inductive State : Type := Invalid | Intermediate | Acceptable.

Definition State_eqb (a b : State) : bool :=
  match a, b with
  | Invalid, Invalid | Intermediate, Intermediate | Acceptable, Acceptable => true
  | _, _ => false
  end.

(** [Qt.KeyboardModifier] flags and [Qt.Key] codes, with Qt's values. *)
Definition ControlModifier : Z := 0x04000000.
Definition AltModifier : Z := 0x08000000.
Definition ShiftModifier : Z := 0x02000000.
Definition NoModifier : Z := 0.
Definition Key_Return : Z := 0x01000004.
Definition Key_Enter : Z := 0x01000005.
Definition Key_Up : Z := 0x01000013.
Definition Key_Down : Z := 0x01000015.

(** [modifiers & flag] used as a condition: true when the result is not 0. *)
Definition testFlag (modifiers flag : Z) : bool :=
  negb (Z.eqb (Z.land modifiers flag) 0).

Record QWheelEvent : Type := {
  delta : Z;
  wheel_modifiers : Z
}.

Record QKeyEvent : Type := {
  key : Z;
  key_modifiers : Z
}.

(** The binding's string API: [PYQT_QSTRING_API_1] is true under the old
    [QString] API (version 1). *)
Class Env : Type := {
  PYQT_QSTRING_API_1 : bool
}.

End Qt.

(** [taurus.external.pint]: quantities, their constructor and their order.
    A comparison of two quantities either yields a [bool] or raises
    [DimensionalityError] (incompatible units); the two laws record that it
    raises nothing else. *)
Module Pint.

Class API : Type := {
  Quantity : Type;
  (** [Quantity(s)] on a string: the parsed quantity, or whatever the parser
      raises. *)
  Quantity_of_str : string -> result Quantity;
  (** [Quantity(x)] on a float: the dimensionless quantity [x]. *)
  Quantity_of_float : float -> Quantity;
  (** [a < b] and [a > b]. *)
  lt : Quantity -> Quantity -> result bool;
  gt : Quantity -> Quantity -> result bool;
  lt_raises : forall a b e, lt a b = Raise e -> e = DimensionalityError;
  gt_raises : forall a b e, gt a b = Raise e -> e = DimensionalityError
}.

End Pint.

(** [taurus.core]: data types, event types, and the interface of the model
    object a widget is attached to. *)
Module Taurus.

(** Modelled from the spec: the enumeration [taurus.core.DataType] is
    declared outside this file; the members the module names are [Integer]
    and [Float], and every other member is an [Other]. *)
Inductive DataType : Type :=
| Integer
| Float
| Other (name : string).

Definition is_Integer_or_Float (t : DataType) : bool :=
  match t with
  | Integer | Float => true
  | Other _ => false
  end.

(** [taurus.core.taurusbasetypes.TaurusEventType]. *)
Inductive TaurusEventType : Type := Change | Config | Periodic | Error.

Definition TaurusEventType_eqb (a b : TaurusEventType) : bool :=
  match a, b with
  | Change, Change | Config, Config | Periodic, Periodic | Error, Error => true
  | _, _ => false
  end.

(** The value object delivered with an event; only its [type] is read. *)
Record EventValue : Type := {
  type : DataType
}.

(** The Python objects that travel between the widget and its model, and
    the model object itself.  [float_], [str_] and [add] are the builtins
    [float(v)], [str(v)] and [v + n] on such objects. *)
Class Model : Type := {
  value : Type;
  None_ : value;
  float_ : value -> result float;
  str_ : value -> string;
  add : value -> num -> result value;
  ModelObj : Type;
  encode : ModelObj -> string -> result value;
  displayValue : ModelObj -> value -> value;
  isNumeric : ModelObj -> bool;
  isFloat : ModelObj -> bool;
  alarm : ModelObj -> float * float;
  range : ModelObj -> float * float
}.

End Taurus.

(* ================================================================== *)
(** ** class [_PintValidator(Qt.QValidator)] *)
(* ================================================================== *)

Module PintValidator.
Import Qt Pint.

Section Validator.
Context {pint : Pint.API} {qt : Qt.Env}.

Record _PintValidator : Type := {
  _top : option Quantity;
  _bottom : option Quantity
}.

(** [_PintValidator(parent)]: both limits start at the class attributes,
    [None]. *)
Definition new : _PintValidator := {| _top := None; _bottom := None |}.

Definition top (self : _PintValidator) : option Quantity := _top self.
Definition bottom (self : _PintValidator) : option Quantity := _bottom self.

Definition setTop (self : _PintValidator) (top : float) : _PintValidator :=
  {| _top := Some (Quantity_of_float top); _bottom := _bottom self |}.

Definition setBottom (self : _PintValidator) (bottom : float) : _PintValidator :=
  {| _top := _top self; _bottom := Some (Quantity_of_float bottom) |}.

(** [limit is not None and cmp q limit], evaluated left to right. *)
Definition limit_violated (limit : option Quantity)
           (cmp : Quantity -> result bool) : result bool :=
  match limit with
  | None => Ok false
  | Some l => cmp l
  end.

(** The second [try] block of [_validate]: [Some r] when one of its
    [return] statements fires, [None] when control falls through. *)
Definition limits_block (self : _PintValidator) (q : Quantity)
           (input : string) (pos : Z) : result (option (State * string * Z)) :=
  try_except_cls
    (below <- limit_violated (bottom self) (fun b => lt q b) ;;
     if below then Ok (Some (Invalid, input, pos))
     else
       above <- limit_violated (top self) (fun t => gt q t) ;;
       if above then Ok (Some (Invalid, input, pos))
       else Ok None)
    DimensionalityError
    (Ok (Some (Invalid, input, pos))).

Definition _validate (self : _PintValidator) (input : string) (pos : Z)
  : result (State * string * Z) :=
  match Quantity_of_str input with
  | Raise _ => Ok (Intermediate, input, pos)
  | Ok q =>
      r <- limits_block self q input pos ;;
      match r with
      | Some early => Ok early
      | None => Ok (Acceptable, input, pos)
      end
  end.

(** What [validate] returns: the 3-tuple of [_validate] or the 2-tuple of
    [_validate_oldQt]. *)
Inductive validate_tuple : Type :=
| Tuple3 (state : State) (input : string) (pos : Z)
| Tuple2 (state : State) (pos : Z).

(** [t[0]]. *)
Definition item0 (t : validate_tuple) : State :=
  match t with
  | Tuple3 s _ _ => s
  | Tuple2 s _ => s
  end.

Definition _validate_oldQt (self : _PintValidator) (input : string) (pos : Z)
  : result (State * Z) :=
  r <- _validate self input pos ;;
  let '(state, _, pos) := r in
  Ok (state, pos).

(** [validate = Qt.PYQT_QSTRING_API_1 and _validate_oldQt or _validate]. *)
Definition validate (self : _PintValidator) (input : string) (pos : Z)
  : result validate_tuple :=
  if PYQT_QSTRING_API_1 then
    r <- _validate_oldQt self input pos ;;
    Ok (Tuple2 (fst r) (snd r))
  else
    r <- _validate self input pos ;;
    Ok (Tuple3 (fst (fst r)) (snd (fst r)) (snd r)).

(** The tuple [validate] hands back for a given state: [(state, pos)]
    under the old string API, [(state, input, pos)] otherwise. *)
Definition returned (state : State) (input : string) (pos : Z) : validate_tuple :=
  if PYQT_QSTRING_API_1 then Tuple2 state pos else Tuple3 state input pos.

(** A limit rejects [q] when it is set and the comparison is true or
    raises. *)
Definition rejects (limit : option Quantity) (cmp : Quantity -> result bool) : bool :=
  match limit with
  | None => false
  | Some l => match cmp l with Ok b => b | Raise _ => true end
  end.

End Validator.
End PintValidator.

(* ================================================================== *)
(** ** class [TaurusValueLineEdit(Qt.QLineEdit, TaurusBaseWritableWidget)] *)
(* ================================================================== *)

Module TaurusValueLineEdit.
Import Qt Pint Taurus PintValidator.

(** The signals the constructor connects and the slots it connects them
    to. *)
Inductive signal : Type :=
| textChanged        (* 'textChanged(const QString &)' *)
| returnPressed      (* 'returnPressed()' *)
| sig_valueChanged   (* 'valueChanged' *)
| editingFinished.   (* 'editingFinished()' *)

Inductive slot : Type :=
| slot_valueChanged
| slot_writeValue
| slot_updatePendingOperations
| slot__onEditingFinished.

Definition signal_eqb (a b : signal) : bool :=
  match a, b with
  | textChanged, textChanged | returnPressed, returnPressed
  | sig_valueChanged, sig_valueChanged | editingFinished, editingFinished => true
  | _, _ => false
  end.

(** Calls to methods this class inherits or receives and does not define:
    they are recorded, in order, in the widget's log. *)
Inductive call : Type :=
| QLineEdit_wheelEvent (evt : QWheelEvent)
| QLineEdit_keyPressEvent (evt : QKeyEvent)
| QWheelEvent_accept
| QKeyEvent_accept
| Base_updateStyle
| Base_handleEvent (evt_type : TaurusEventType) (evt_value : EventValue)
| writeValue
| updatePendingOperations
| emitted (s : signal)
| debug (fmt : string) (args : list float).

Section Widget.
Context {pint : Pint.API} {qt : Qt.Env} {taurus : Taurus.Model}.

Record widget : Type := {
  (* Qt.QLineEdit *)
  text : string;
  isReadOnly : bool;
  validator : option _PintValidator;
  styleSheet : string;
  (* TaurusBaseWritableWidget *)
  getModelObj : option ModelObj;
  _autoApply : bool;
  hasPendingOperations : bool;
  (* TaurusValueLineEdit *)
  _enableWheelEvent : bool;
  __minAlarm : float;
  __maxAlarm : float;
  __minLimit : float;
  __maxLimit : float;
  (* calls made so far to methods defined elsewhere *)
  calls : list call
}.

Definition setText (s : string) (w : widget) : widget :=
  {| text := s; isReadOnly := isReadOnly w; validator := validator w;
     styleSheet := styleSheet w; getModelObj := getModelObj w;
     _autoApply := _autoApply w; hasPendingOperations := hasPendingOperations w;
     _enableWheelEvent := _enableWheelEvent w;
     __minAlarm := __minAlarm w; __maxAlarm := __maxAlarm w;
     __minLimit := __minLimit w; __maxLimit := __maxLimit w;
     calls := calls w |}.

Definition setValidator (v : option _PintValidator) (w : widget) : widget :=
  {| text := text w; isReadOnly := isReadOnly w; validator := v;
     styleSheet := styleSheet w; getModelObj := getModelObj w;
     _autoApply := _autoApply w; hasPendingOperations := hasPendingOperations w;
     _enableWheelEvent := _enableWheelEvent w;
     __minAlarm := __minAlarm w; __maxAlarm := __maxAlarm w;
     __minLimit := __minLimit w; __maxLimit := __maxLimit w;
     calls := calls w |}.

Definition setStyleSheet (s : string) (w : widget) : widget :=
  {| text := text w; isReadOnly := isReadOnly w; validator := validator w;
     styleSheet := s; getModelObj := getModelObj w;
     _autoApply := _autoApply w; hasPendingOperations := hasPendingOperations w;
     _enableWheelEvent := _enableWheelEvent w;
     __minAlarm := __minAlarm w; __maxAlarm := __maxAlarm w;
     __minLimit := __minLimit w; __maxLimit := __maxLimit w;
     calls := calls w |}.

Definition set_alarm (a : float * float) (w : widget) : widget :=
  {| text := text w; isReadOnly := isReadOnly w; validator := validator w;
     styleSheet := styleSheet w; getModelObj := getModelObj w;
     _autoApply := _autoApply w; hasPendingOperations := hasPendingOperations w;
     _enableWheelEvent := _enableWheelEvent w;
     __minAlarm := fst a; __maxAlarm := snd a;
     __minLimit := __minLimit w; __maxLimit := __maxLimit w;
     calls := calls w |}.

Definition set_limit (r : float * float) (w : widget) : widget :=
  {| text := text w; isReadOnly := isReadOnly w; validator := validator w;
     styleSheet := styleSheet w; getModelObj := getModelObj w;
     _autoApply := _autoApply w; hasPendingOperations := hasPendingOperations w;
     _enableWheelEvent := _enableWheelEvent w;
     __minAlarm := __minAlarm w; __maxAlarm := __maxAlarm w;
     __minLimit := fst r; __maxLimit := snd r;
     calls := calls w |}.

Definition setEnableWheelEvent (b : bool) (w : widget) : widget :=
  {| text := text w; isReadOnly := isReadOnly w; validator := validator w;
     styleSheet := styleSheet w; getModelObj := getModelObj w;
     _autoApply := _autoApply w; hasPendingOperations := hasPendingOperations w;
     _enableWheelEvent := b;
     __minAlarm := __minAlarm w; __maxAlarm := __maxAlarm w;
     __minLimit := __minLimit w; __maxLimit := __maxLimit w;
     calls := calls w |}.

Definition record (c : call) (w : widget) : widget :=
  {| text := text w; isReadOnly := isReadOnly w; validator := validator w;
     styleSheet := styleSheet w; getModelObj := getModelObj w;
     _autoApply := _autoApply w; hasPendingOperations := hasPendingOperations w;
     _enableWheelEvent := _enableWheelEvent w;
     __minAlarm := __minAlarm w; __maxAlarm := __maxAlarm w;
     __minLimit := __minLimit w; __maxLimit := __maxLimit w;
     calls := calls w ++ [c] |}.

(** A method body: it reads and updates the widget and either returns or
    raises; the updates made before a raise stay. *)
Definition M (A : Type) : Type := widget -> result A * widget.

Definition ret {A} (a : A) : M A := fun w => (Ok a, w).
Definition raise {A} (e : exn) : M A := fun w => (Raise e, w).
Definition mbind {A B} (m : M A) (k : A -> M B) : M B :=
  fun w =>
    match m w with
    | (Ok a, w') => k a w'
    | (Raise e, w') => (Raise e, w')
    end.
Definition lift {A} (r : result A) : M A := fun w => (r, w).
Definition read {A} (f : widget -> A) : M A := fun w => (Ok (f w), w).
Definition update (f : widget -> widget) : M unit := fun w => (Ok tt, f w).
Definition do_call (c : call) : M unit := update (record c).

Notation "x <~ m ;; k" := (mbind m (fun x => k))
  (at level 61, m at next level, right associativity).
Notation "m1 ;;; m2" := (mbind m1 (fun _ => m2))
  (at level 61, right associativity).

(** The part of [__init__] that follows the two base-class constructors:
    [base] is the widget as they leave it.  (The four [connect] calls are
    the table [connections] below.) *)
Definition __init__ (base : widget) : widget :=
  setValidator None
    (set_limit (neg_inf, inf)
       (set_alarm (neg_inf, inf)
          (setEnableWheelEvent false base))).

Definition _updateValidator (value : EventValue) : M unit :=
  if is_Integer_or_Float (type value) then
    lo <~ read __minLimit ;;
    hi <~ read __maxLimit ;;
    let validator := new in
    let validator := setBottom validator lo in
    let validator := setTop validator hi in
    update (setValidator (Some validator)) ;;;
    do_call (debug "_PintValidator set with limits=[%f,%f]" [lo; hi])
  else
    update (setValidator None) ;;;
    do_call (debug "Validator disabled" []).

Definition _onEditingFinished : M unit :=
  autoApply <~ read _autoApply ;;
  if autoApply then do_call writeValue else ret tt.

(** [valueChanged(self, *args)] calls the inherited [emitValueChanged],
    passed here as an argument. *)
Definition valueChanged (emitValueChanged : M unit) : M unit :=
  emitValueChanged.

(** [evt_src] is only handed on to the base class and is left out. *)
Definition handleEvent (evt_type : TaurusEventType) (evt_value : EventValue)
  : M unit :=
  (if TaurusEventType_eqb evt_type Config then
     attr <~ read getModelObj ;;
     match attr with
     | None => raise AttributeError        (* None.alarm *)
     | Some attr =>
         update (set_alarm (alarm attr)) ;;;
         update (set_limit (range attr)) ;;;
         _updateValidator evt_value
     end
   else ret tt) ;;;
  do_call (Base_handleEvent evt_type evt_value).

(** [lo < x < hi] and [lo <= x <= hi], Python's chained comparisons. *)
Definition strictly_between (lo x hi : float) : bool :=
  float_lt lo x && float_lt x hi.
Definition within (lo x hi : float) : bool :=
  float_le lo x && float_le x hi.

Definition _inAlarm (self : widget) (v : value) : result bool :=
  try_except
    (x <- float_ v ;;
     Ok (negb (strictly_between (__minAlarm self) x (__maxAlarm self))))
    (Ok false).

Definition _outOfRange (self : widget) (v : value) : result bool :=
  match validator self with
  | Some validator =>
      t <- validate validator (str_ v) 0 ;;
      Ok (negb (State_eqb (item0 t) Acceptable))
  | None =>
      try_except
        (x <- float_ v ;;
         Ok (negb (within (__minLimit self) x (__maxLimit self))))
        (Ok false)
  end.

(** [model.encode]: an attribute lookup on [None] raises. *)
Definition getattr_encode (model : option ModelObj)
  : result (string -> result value) :=
  match model with
  | None => Raise AttributeError
  | Some m => Ok (encode m)
  end.

Definition getValue (self : widget) : result value :=
  let v_qstr := text self in
  let model := getModelObj self in
  try_except
    (enc <- getattr_encode model ;; enc v_qstr)
    (Ok None_).

(** ['TaurusValueLineEdit {color: %s; font-weight: %s}' % (color, weight)] *)
Definition style_format (color weight : string) : string :=
  ("TaurusValueLineEdit {color: " ++ color ++ "; font-weight: " ++ weight ++ "}")%string.

Definition updateStyle : M unit :=
  do_call Base_updateStyle ;;;
  self <~ read (fun w => w) ;;
  let color := "black"%string in
  let weight := "normal"%string in
  v <~ lift (getValue self) ;;
  outOfRange <~ lift (_outOfRange self v) ;;
  cw <~ (if outOfRange then ret ("gray"%string, weight)
         else
           inAlarm <~ lift (_inAlarm self v) ;;
           if inAlarm then
             let color := "orange"%string in
             if hasPendingOperations self then ret (color, "bold"%string)
             else ret (color, weight)
           else if hasPendingOperations self then ret ("blue"%string, "bold"%string)
           else ret (color, weight)) ;;
  update (setStyleSheet (style_format (fst cw) (snd cw))).

Definition setValue (v : value) : M unit :=
  model <~ read getModelObj ;;
  let v_str :=
    match model with
    | None => str_ v
    | Some model => str_ (displayValue model v)
    end in
  let v_str := strip v_str in
  update (setText v_str).

Definition _stepBy (v : num) : M unit :=
  self <~ read (fun w => w) ;;
  current <~ lift (getValue self) ;;
  sum <~ lift (add current v) ;;
  setValue sum.

Definition getEnableWheelEvent (self : widget) : bool := _enableWheelEvent self.

Definition wheelEvent (evt : QWheelEvent) : M unit :=
  self <~ read (fun w => w) ;;
  if negb (getEnableWheelEvent self) || isReadOnly self then
    do_call (QLineEdit_wheelEvent evt)
  else
    match getModelObj self with
    | None => do_call (QLineEdit_wheelEvent evt)
    | Some model =>
        if negb (isNumeric model) then do_call (QLineEdit_wheelEvent evt)
        else
          do_call QWheelEvent_accept ;;;
          let numDegrees := int_div (delta evt) 8 in
          let numSteps := Int (int_div numDegrees 15) in
          let modifiers := wheel_modifiers evt in
          let numSteps :=
            if testFlag modifiers ControlModifier then mul numSteps (Int 10)
            else if testFlag modifiers AltModifier && isFloat model
                 then mul numSteps (Py.Float point_one)
                 else numSteps in
          _stepBy numSteps
    end.

Definition keyPressEvent (evt : QKeyEvent) : M unit :=
  if Z.eqb (key evt) Key_Return || Z.eqb (key evt) Key_Enter then
    do_call (QLineEdit_keyPressEvent evt) ;;;
    do_call QKeyEvent_accept
  else
    self <~ read (fun w => w) ;;
    if isReadOnly self then do_call (QLineEdit_keyPressEvent evt)
    else
      match getModelObj self with
      | None => do_call (QLineEdit_keyPressEvent evt)
      | Some model =>
          if negb (isNumeric model) then do_call (QLineEdit_keyPressEvent evt)
          else
            let step :=
              if Z.eqb (key evt) Key_Up then Some (Int 1)
              else if Z.eqb (key evt) Key_Down then Some (Int (-1))
              else None in
            match step with
            | None => do_call (QLineEdit_keyPressEvent evt)
            | Some numSteps =>
                do_call QKeyEvent_accept ;;;
                let modifiers := key_modifiers evt in
                let numSteps :=
                  if testFlag modifiers ControlModifier then mul numSteps (Int 10)
                  else if testFlag modifiers AltModifier && isFloat model
                       then mul numSteps (Py.Float point_one)
                       else numSteps in
                _stepBy numSteps
            end
      end.

(** *** Signals and slots *)

(** The four [self.connect(self, Qt.SIGNAL(...), slot)] calls of
    [__init__], in order; nothing in the module disconnects them. *)
Definition connections : list (signal * slot) :=
  [ (textChanged, slot_valueChanged);
    (returnPressed, slot_writeValue);
    (sig_valueChanged, slot_updatePendingOperations);
    (editingFinished, slot__onEditingFinished) ].

Definition slots_of (s : signal) : list slot :=
  map snd (filter (fun c => signal_eqb (fst c) s) connections).

(** Modelled from the spec: [TaurusBaseWritableWidget.emitValueChanged] is
    inherited and its body is not in this file; by the spec a text change
    "only emits valueChanged", so it emits the signal ['valueChanged']. *)
Definition emitValueChanged (emit : signal -> M unit) : M unit :=
  emit sig_valueChanged.

Fixpoint run_all (ms : list (M unit)) : M unit :=
  match ms with
  | [] => ret tt
  | m :: ms' => m ;;; run_all ms'
  end.

(** Delivery of a signal: every connected slot runs, in connection order.
    A slot may emit again; [fuel] bounds the nesting the way the
    interpreter's recursion limit does. *)
Fixpoint emit (fuel : nat) (s : signal) : M unit :=
  match fuel with
  | O => raise RuntimeError
  | S fuel' =>
      do_call (emitted s) ;;;
      run_all
        (map (fun sl =>
                match sl with
                | slot_valueChanged => valueChanged (emitValueChanged (emit fuel'))
                | slot_writeValue => do_call writeValue
                | slot_updatePendingOperations => do_call updatePendingOperations
                | slot__onEditingFinished => _onEditingFinished
                end)
             (slots_of s))
  end.

(** The widget after the calls [cs] have been recorded, in order. *)
Definition record_all (cs : list call) (w : widget) : widget :=
  fold_left (fun w c => record c w) cs w.

End Widget.

(** Exposes the state passing of a method body. *)
Ltac run_M := unfold mbind, read, do_call, update, lift, ret.

End TaurusValueLineEdit.

(* ================================================================== *)
(** ** class [TaurusConfigLineEdit(Qt.QLineEdit, TaurusBaseWritableWidget)] *)
(* ================================================================== *)

Module TaurusConfigLineEdit.
Import Taurus.

Inductive call : Type :=
| Base_setModel (model : string).

Section Widget.
Context {taurus : Taurus.Model}.

Record widget : Type := {
  text : string;
  getModelObj : option ModelObj;
  _autoApply : bool;
  _configParam : string;
  calls : list call
}.

Definition getattr_encode (model : option ModelObj)
  : result (string -> result value) :=
  match model with
  | None => Raise AttributeError
  | Some m => Ok (encode m)
  end.

Definition getValue (self : widget) : result value :=
  let v_qstr := text self in
  let model := getModelObj self in
  try_except
    (enc <- getattr_encode model ;; enc v_qstr)
    (Ok None_).

(** The body of the [try] in [setModel]; the three string operations are
    total on [str]. *)
Definition configParam_of (model : string) : result string :=
  Ok (lower (slice_from (rfind "="%char model + 1) model)).

(** [setModel(self, model)] for a [str] argument, on which [str(model)] is
    the argument itself; the inherited [setModel] is recorded. *)
Definition setModel (model : string) (self : widget) : result widget :=
  param <- try_except (configParam_of model) (Ok EmptyString) ;;
  Ok {| text := text self; getModelObj := getModelObj self;
        _autoApply := _autoApply self;
        _configParam := param;
        calls := calls self ++ [Base_setModel model] |}.

End Widget.
End TaurusConfigLineEdit.

(* ================================================================== *)
(** ** A small concrete pint and a small concrete model

    Used to run the definitions above on concrete inputs. *)
(* ================================================================== *)

Module Demo.
Import Qt Taurus.

(** A quantity is a magnitude with a unit name; two quantities compare
    when their unit names agree. *)
Definition Q : Type := (float * string)%type.

Definition digit_of (a : ascii) : option Z :=
  let n := nat_of_ascii a in
  if Nat.leb 48 n && Nat.leb n 57 then Some (Z.of_nat (n - 48)) else None.

Fixpoint parse_digits (s : string) (acc : Z) : option Z :=
  match s with
  | EmptyString => Some acc
  | String a s' =>
      match digit_of a with
      | Some d => parse_digits s' (10 * acc + d)
      | None => None
      end
  end.

(** Decimal integers with an optional minus sign. *)
Definition parse_int (s : string) : option Z :=
  match s with
  | EmptyString => None
  | String "-" EmptyString => None
  | String "-" s' => option_map Z.opp (parse_digits s' 0)
  | _ => parse_digits s 0
  end.

Fixpoint split_space (s : string) : string * string :=
  match s with
  | EmptyString => (EmptyString, EmptyString)
  | String a s' =>
      if Ascii.eqb a " " then (EmptyString, s')
      else let (x, y) := split_space s' in (String a x, y)
  end.

Definition parse_quantity (s : string) : result Q :=
  let (number, unit_name) := split_space s in
  match parse_int number with
  | Some z => Ok (float_of_int z, unit_name)
  | None => Raise (OtherError "UndefinedUnitError")
  end.

Definition compare_with (op : float -> float -> bool) (a b : Q) : result bool :=
  if String.eqb (snd a) (snd b) then Ok (op (fst a) (fst b))
  else Raise DimensionalityError.

Definition q_lt : Q -> Q -> result bool := compare_with float_lt.
Definition q_gt : Q -> Q -> result bool := compare_with (fun x y => float_lt y x).

Lemma compare_with_raises op a b e :
  compare_with op a b = Raise e -> e = DimensionalityError.
Proof.
  unfold compare_with. destruct (String.eqb (snd a) (snd b)); congruence.
Qed.

Definition pint : Pint.API :=
  {| Pint.Quantity := Q;
     Pint.Quantity_of_str := parse_quantity;
     Pint.Quantity_of_float := fun x => (x, EmptyString);
     Pint.lt := q_lt;
     Pint.gt := q_gt;
     Pint.lt_raises := compare_with_raises float_lt;
     Pint.gt_raises := compare_with_raises (fun x y => float_lt y x) |}.

Definition qt_api2 : Qt.Env := {| PYQT_QSTRING_API_1 := false |}.
Definition qt_api1 : Qt.Env := {| PYQT_QSTRING_API_1 := true |}.

(** Values are [None], ints and floats; the model object is an integer
    attribute with its alarm and range bounds. *)
Inductive val : Type :=
| VNone
| VInt (z : Z)
| VFloat (x : float).

Definition val_float (v : val) : result float :=
  match v with
  | VNone => Raise TypeError
  | VInt z => Ok (float_of_int z)
  | VFloat x => Ok x
  end.

Fixpoint digits_of (fuel : nat) (n : Z) (acc : string) : string :=
  match fuel with
  | O => acc
  | S fuel' =>
      let d := ascii_of_nat (48 + Z.to_nat (n mod 10)) in
      if (n <? 10)%Z then String d acc
      else digits_of fuel' (n / 10) (String d acc)
  end.

Definition str_int (z : Z) : string :=
  if (z <? 0)%Z then String "-" (digits_of 400 (- z) EmptyString)
  else digits_of 400 z EmptyString.

(** Floats print as an exact binary fraction, [m*2**e]. *)
Definition val_str (v : val) : string :=
  match v with
  | VNone => "None"
  | VInt z => str_int z
  | VFloat (S754_zero _) => "0.0"
  | VFloat (S754_infinity false) => "inf"
  | VFloat (S754_infinity true) => "-inf"
  | VFloat S754_nan => "nan"
  | VFloat (S754_finite s m e) =>
      ((if s then "-" else "") ++ str_int (Zpos m) ++ "*2**" ++ str_int e)%string
  end.

Definition val_add (v : val) (n : num) : result val :=
  match v, n with
  | VNone, _ => Raise TypeError
  | VInt z, Int k => Ok (VInt (z + k))
  | VInt z, Py.Float x => Ok (VFloat (SFadd prec emax (float_of_int z) x))
  | VFloat y, _ => Ok (VFloat (SFadd prec emax y (to_float n)))
  end.

Record attribute : Type := {
  attr_isFloat : bool;
  attr_alarm : float * float;
  attr_range : float * float
}.

Definition attr_encode (a : attribute) (s : string) : result val :=
  match parse_int s with
  | Some z => Ok (VInt z)
  | None => Raise ValueError
  end.

Definition model : Taurus.Model :=
  {| Taurus.value := val;
     Taurus.None_ := VNone;
     Taurus.float_ := val_float;
     Taurus.str_ := val_str;
     Taurus.add := val_add;
     Taurus.ModelObj := attribute;
     Taurus.encode := attr_encode;
     Taurus.displayValue := fun _ v => v;
     Taurus.isNumeric := fun _ => true;
     Taurus.isFloat := attr_isFloat;
     Taurus.alarm := attr_alarm;
     Taurus.range := attr_range |}.

Definition f (z : Z) : float := float_of_int z.

(** An attribute with range [0, 100] and alarms at 10 and 90. *)
Definition attr0 : attribute :=
  {| attr_isFloat := true; attr_alarm := (f 10, f 90); attr_range := (f 0, f 100) |}.

End Demo.

(** ** Step counts of the wheel and key handlers, as closed formulas *)

Module Steps.
Import Qt Taurus.

(** The step count with the modifier scaling the handlers apply: times 10
    under Control; failing that, times [.1] under Alt on a float model;
    failing both, the base step itself. *)
Definition scaled {taurus : Taurus.Model} (modifiers : Z) (model : ModelObj) (base : Z) : num :=
  if testFlag modifiers ControlModifier then Int (base * 10)
  else if testFlag modifiers AltModifier && isFloat model
       then Py.Float (float_mul (float_of_int base) point_one)
       else Int base.

(** The scaling as the two modifier clauses read when each is applied on
    its own condition: times 10 when Control is held, and times [.1] when
    Alt is held on a float model. *)
Definition scaled_independently {taurus : Taurus.Model}
           (modifiers : Z) (model : ModelObj) (base : Z) : num :=
  let numSteps := Int base in
  let numSteps :=
    if testFlag modifiers ControlModifier then mul numSteps (Int 10) else numSteps in
  if testFlag modifiers AltModifier && isFloat model
  then mul numSteps (Py.Float point_one) else numSteps.

End Steps.

(** Concrete widgets and events on the demo attribute. *)
Module Examples.
Import Qt Taurus PintValidator TaurusValueLineEdit.

(** A validator with limits 0 and 100 (dimensionless), as
    [_updateValidator] builds it. *)
Definition v0_100 : @_PintValidator Demo.pint :=
  @setTop Demo.pint (@setBottom Demo.pint (@new Demo.pint) (Demo.f 0)) (Demo.f 100).

(** A widget on the demo attribute: range [0, 100], alarms at 10 and 90,
    no validator, nothing pending. *)
Definition w0 (txt : string) : @widget Demo.pint Demo.model :=
  @Build_widget Demo.pint Demo.model
    txt false None EmptyString            (* text, isReadOnly, validator, styleSheet *)
    (Some Demo.attr0) false false         (* getModelObj, _autoApply, hasPendingOperations *)
    true                                  (* _enableWheelEvent *)
    (Demo.f 10) (Demo.f 90)               (* alarms *)
    (Demo.f 0) (Demo.f 100)               (* limits *)
    [].

(** The style sheet [updateStyle] leaves on such a widget. *)
Definition styled (txt : string) (pending : bool) : string :=
  styleSheet
    (snd (@updateStyle Demo.pint Demo.qt_api2 Demo.model
            (@Build_widget Demo.pint Demo.model txt false None EmptyString
               (Some Demo.attr0) false pending true
               (Demo.f 10) (Demo.f 90) (Demo.f 0) (Demo.f 100) []))).

(** One wheel notch (120 eighths of a degree) with Control and Alt held. *)
Definition ctrl_alt_notch : QWheelEvent :=
  {| delta := 120; wheel_modifiers := Z.lor ControlModifier AltModifier |}.

(** A config widget on the demo attribute and one with no model. *)
Definition c0 (txt : string) (m : option Demo.attribute) : @TaurusConfigLineEdit.widget Demo.model :=
  @TaurusConfigLineEdit.Build_widget Demo.model txt m false EmptyString [].

End Examples.

(* ================================================================== *)
(** ** The remaining methods *)
(* ================================================================== *)

(** Helpers on byte strings used by [__decimalDigits] and by the
    statements about stripped text. *)
Module Str.

(** [s[-1]]: the last character; an empty string raises [IndexError]. *)
Fixpoint last_char (s : string) : result ascii :=
  match s with
  | EmptyString => Raise (OtherError "IndexError")
  | String a EmptyString => Ok a
  | String _ s' => last_char s'
  end.

(** [s[:-1]]: all but the last character. *)
Fixpoint but_last (s : string) : string :=
  match s with
  | EmptyString => EmptyString
  | String a EmptyString => EmptyString
  | String a s' => String a (but_last s')
  end.

(** [s.split(c)] for a one-character separator: never an empty list. *)
Fixpoint split (c : ascii) (s : string) : list string :=
  match s with
  | EmptyString => [EmptyString]
  | String a s' =>
      if Ascii.eqb a c then EmptyString :: split c s'
      else match split c s' with
           | [] => [String a EmptyString]
           | h :: t => String a h :: t
           end
  end.

(** [l[-1]]. *)
Definition last_item (l : list string) : result string :=
  match rev l with
  | [] => Raise (OtherError "IndexError")
  | x :: _ => Ok x
  end.



End Str.

(** [TaurusValueLineEdit.__decimalDigits] and [resetEnableWheelEvent]. *)
Module ValueLineEditMore.
Import Qt Pint Taurus PintValidator TaurusValueLineEdit Str.

Section DecimalDigits.
(** The builtin [int(s)] on a string: the integer, or the exception. *)
Variable int_ : string -> result Z.

Definition __decimalDigits (fmt : string) : result (option Z) :=
  try_except
    (c <- last_char fmt ;;
     if existsb (String.eqb (lower (String c EmptyString))) ["f"%string; "g"%string]
        && contains "." fmt
     then
       digits <- last_item (split "." (but_last fmt)) ;;
       n <- int_ digits ;;
       Ok (Some n)
     else Ok None)
    (Ok None).

End DecimalDigits.

Section Widget.
Context {pint : Pint.API} {qt : Qt.Env} {taurus : Taurus.Model}.

Definition resetEnableWheelEvent (w : widget) : widget :=
  setEnableWheelEvent false w.


(** Two widgets that differ at most in their style sheet and in the calls
    recorded. *)
Definition same_but_style (a b : widget) : Prop :=
  text a = text b /\ isReadOnly a = isReadOnly b /\ validator a = validator b /\
  getModelObj a = getModelObj b /\
  _autoApply a = _autoApply b /\ hasPendingOperations a = hasPendingOperations b /\
  _enableWheelEvent a = _enableWheelEvent b /\
  __minAlarm a = __minAlarm b /\ __maxAlarm a = __maxAlarm b /\
  __minLimit a = __minLimit b /\ __maxLimit a = __maxLimit b.

End Widget.
End ValueLineEditMore.

(** The methods of [TaurusConfigLineEdit] that read and write the
    configuration parameter and the style sheet. *)
Module ConfigLineEditMore.
Import Taurus.

(** What these methods need beyond [Taurus.Model]: [model.getParam(name)]
    and the comparison [v != s] of a value with a string. *)
Class Params {taurus : Taurus.Model} : Type := {
  getParam : ModelObj -> string -> value;
  ne_str : value -> string -> bool
}.

Inductive call : Type :=
| blockSignals (b : bool)
| setParam (name : string) (val : string).

Section Widget.
Context {taurus : Taurus.Model} {params : Params}.

(** The widget of [TaurusConfigLineEdit] together with the Qt state these
    methods touch. *)
Record widget : Type := {
  core : TaurusConfigLineEdit.widget;
  styleSheet : string;
  signalsBlocked : bool;
  log : list call
}.

Definition text (w : widget) : string := TaurusConfigLineEdit.text (core w).
Definition getModelObj (w : widget) : option ModelObj :=
  TaurusConfigLineEdit.getModelObj (core w).
Definition _configParam (w : widget) : string :=
  TaurusConfigLineEdit._configParam (core w).
Definition _autoApply (w : widget) : bool :=
  TaurusConfigLineEdit._autoApply (core w).
Definition getValue (w : widget) : result value :=
  TaurusConfigLineEdit.getValue (core w).

Definition setText (s : string) (w : widget) : widget :=
  {| core := {| TaurusConfigLineEdit.text := s;
                TaurusConfigLineEdit.getModelObj := getModelObj w;
                TaurusConfigLineEdit._autoApply := _autoApply w;
                TaurusConfigLineEdit._configParam := _configParam w;
                TaurusConfigLineEdit.calls := TaurusConfigLineEdit.calls (core w) |};
     styleSheet := styleSheet w; signalsBlocked := signalsBlocked w; log := log w |}.

Definition setStyleSheet (s : string) (w : widget) : widget :=
  {| core := core w; styleSheet := s; signalsBlocked := signalsBlocked w; log := log w |}.

(** [self.blockSignals(b)]: the flag is set and the call recorded. *)
Definition do_blockSignals (b : bool) (w : widget) : widget :=
  {| core := core w; styleSheet := styleSheet w; signalsBlocked := b;
     log := log w ++ [blockSignals b] |}.

Definition record (c : call) (w : widget) : widget :=
  {| core := core w; styleSheet := styleSheet w; signalsBlocked := signalsBlocked w;
     log := log w ++ [c] |}.

(** ['TaurusConfigLineEdit {color: %s; font-weight: %s}' % (color, weight)] *)
Definition style_format (color weight : string) : string :=
  ("TaurusConfigLineEdit {color: " ++ color ++ "; font-weight: " ++ weight ++ "}")%string.

(** [not cfg] on a string: true on the empty string. *)
Definition is_empty (s : string) : bool :=
  match s with EmptyString => true | _ => false end.

Definition setValue (v : value) (self : widget) : widget :=
  let model := getModelObj self in
  let cfg := _configParam self in
  let v_str :=
    match model with
    | None => str_ v
    | Some m => if is_empty cfg then str_ v else str_ (getParam m cfg)
    end in
  do_blockSignals false (setText (strip v_str) (do_blockSignals true self)).

Definition valueChanged (self : widget) : result unit * widget :=
  let model := getModelObj self in
  match getValue self with
  | Raise e => (Raise e, self)
  | Ok current =>
      match model with
      | None => (Raise AttributeError, self)          (* None.getParam *)
      | Some m =>
          if ne_str current (str_ (getParam m (_configParam self)))
          then (Ok tt, setStyleSheet (style_format "blue" "bold") self)
          else (Ok tt, setStyleSheet (style_format "black" "normal") self)
      end
  end.

(** [handleEvent(self, evt_src, evt_type, evt_value)] ignores its
    arguments. *)
Definition handleEvent (self : widget) : result unit * widget :=
  valueChanged self.

Definition writeValue (self : widget) : result unit * widget :=
  match getModelObj self with
  | None => (Raise AttributeError, self)              (* None.setParam *)
  | Some m =>
      (Ok tt,
       setStyleSheet (style_format "black" "normal")
         (record (setParam (_configParam self) (text self)) self))
  end.

Definition _onEditingFinished (self : widget) : result unit * widget :=
  if _autoApply self then writeValue self else (Ok tt, self).

End Widget.
End ConfigLineEditMore.

(** Concrete inputs for the remaining methods. *)
Module MoreExamples.

(** [int] on plain decimal digits, enough to run the examples. *)
Definition int_of_digits (s : string) : result Z :=
  match Demo.parse_int s with
  | Some z => Ok z
  | None => Raise ValueError
  end.

(** A parameter table for the demo attribute: every parameter reads 7,
    and a value differs from a string when it does not print as it. *)
Definition demo_params : @ConfigLineEditMore.Params Demo.model :=
  @ConfigLineEditMore.Build_Params Demo.model
    (fun _ _ => Demo.VInt 7)
    (fun v s => negb (String.eqb (Demo.val_str v) s)).

Definition cw (txt : string) (m : option Demo.attribute) (cfg : string) (auto blocked : bool)
  : @ConfigLineEditMore.widget Demo.model :=
  @ConfigLineEditMore.Build_widget Demo.model
    (@TaurusConfigLineEdit.Build_widget Demo.model txt m auto cfg [])
    EmptyString blocked [].

End MoreExamples.

(* ================================================================== *)
(** * Properties *)
(* ================================================================== *)

Unset Implicit Arguments.

(** ** [_PintValidator.validate] *)

Module PintValidatorProps.
Import Qt Pint PintValidator.

Section Props.
Context {pint : Pint.API} {qt : Qt.Env}.

Lemma limit_violated_rejects (limit : option Quantity) (cmp : Quantity -> result bool) :
  (forall l e, cmp l = Raise e -> e = DimensionalityError) ->
  limit_violated limit cmp = Ok (rejects limit cmp) \/
  (limit_violated limit cmp = Raise DimensionalityError /\ rejects limit cmp = true).
Proof.
  intros Hlaw. unfold limit_violated, rejects.
  destruct limit as [l|]; [ | now left ].
  destruct (cmp l) as [b|e] eqn:E; [ now left | right ].
  now rewrite (Hlaw _ _ E).
Qed.

(** The [try] block returns [Invalid] as soon as one limit rejects and
    falls through otherwise; it never raises. *)
Lemma limits_block_eq (self : _PintValidator) (q : Quantity) (input : string) (pos : Z) :
  limits_block self q input pos =
  Ok (if rejects (bottom self) (fun b => lt q b) || rejects (top self) (fun t => gt q t)
      then Some (Invalid, input, pos) else None).
Proof.
  unfold limits_block.
  destruct (limit_violated_rejects (bottom self) (fun b => lt q b)) as [Hb|[Hb Hb']];
    [ intros l e; apply lt_raises | rewrite Hb .. ]; cbn.
  2: now rewrite Hb'.
  destruct (rejects (bottom self) (fun b => lt q b)); cbn; [ reflexivity | ].
  destruct (limit_violated_rejects (top self) (fun t => gt q t)) as [Ht|[Ht Ht']];
    [ intros l e; apply gt_raises | rewrite Ht .. ]; cbn.
  2: now rewrite Ht'.
  now destruct (rejects (top self) (fun t => gt q t)).
Qed.

Lemma _validate_parsed (self : _PintValidator) (input : string) (pos : Z) (q : Quantity) :
  Quantity_of_str input = Ok q ->
  _validate self input pos =
  Ok (if rejects (bottom self) (fun b => lt q b) || rejects (top self) (fun t => gt q t)
      then Invalid else Acceptable, input, pos).
Proof.
  intros Hq. unfold _validate. rewrite Hq, limits_block_eq. cbn.
  now destruct (rejects (bottom self) _ || rejects (top self) _).
Qed.

Lemma _validate_unparsed (self : _PintValidator) (input : string) (pos : Z) (e : exn) :
  Quantity_of_str input = Raise e ->
  _validate self input pos = Ok (Intermediate, input, pos).
Proof. intros Hq. unfold _validate. now rewrite Hq. Qed.

(** [validate] is [_validate] with the tuple cut to the binding's API. *)
Lemma validate_of__validate (self : _PintValidator) (input : string) (pos : Z) st :
  _validate self input pos = Ok (st, input, pos) ->
  validate self input pos = Ok (returned st input pos).
Proof.
  intros H. unfold validate, returned, _validate_oldQt. rewrite H.
  now destruct PYQT_QSTRING_API_1.
Qed.

(** [validate] always returns; it never raises. *)
Lemma validate_total (self : _PintValidator) (input : string) (pos : Z) :
  exists st, validate self input pos = Ok (returned st input pos).
Proof.
  destruct (Quantity_of_str input) as [q|e] eqn:E.
  - eexists. apply validate_of__validate. now apply _validate_parsed with (q := q).
  - eexists. apply validate_of__validate. now apply _validate_unparsed with (e := e).
Qed.

Lemma item0_returned st input pos : item0 (returned st input pos) = st.
Proof. unfold returned. now destruct PYQT_QSTRING_API_1. Qed.

(** C1: for an input that parses as a quantity [q], [validate] returns
    [Invalid] whenever the bottom limit is set and [q < bottom] holds, or
    the top limit is set and [q > top] holds; and when [q] is below no set
    bottom and above no set top, the comparisons raising nothing, it
    returns [Acceptable], with the input string and the position handed
    back as they came in. *)
Theorem validate_limits (self : _PintValidator) (input : string) (pos : Z) (q : Quantity) :
  Quantity_of_str input = Ok q ->
  (((exists b, bottom self = Some b /\ lt q b = Ok true) \/
    (exists t, top self = Some t /\ gt q t = Ok true)) ->
   _validate self input pos = Ok (Invalid, input, pos) /\
   validate self input pos = Ok (returned Invalid input pos))
  /\
  ((forall b, bottom self = Some b -> lt q b = Ok false) ->
   (forall t, top self = Some t -> gt q t = Ok false) ->
   _validate self input pos = Ok (Acceptable, input, pos) /\
   validate self input pos = Ok (returned Acceptable input pos)).
Proof.
  intros Hq. pose proof (@_validate_parsed self input pos q Hq) as Hv. split.
  - intros Hout.
    assert (rejects (bottom self) (fun b => lt q b) || rejects (top self) (fun t => gt q t) = true) as R.
    { apply orb_true_iff. unfold rejects.
      destruct Hout as [(b & -> & ->)|(t & -> & ->)]; [ now left | now right ]. }
    rewrite R in Hv. split; [ exact Hv | now apply validate_of__validate ].
  - intros Hb Ht.
    assert (rejects (bottom self) (fun b => lt q b) || rejects (top self) (fun t => gt q t) = false) as R.
    { apply orb_false_iff. unfold rejects. split.
      - destruct (bottom self) as [b|]; [ now rewrite (Hb b eq_refl) | reflexivity ].
      - destruct (top self) as [t|]; [ now rewrite (Ht t eq_refl) | reflexivity ]. }
    rewrite R in Hv. split; [ exact Hv | now apply validate_of__validate ].
Qed.

(** C7: an input that does not parse as a quantity gives [Intermediate];
    a parsed quantity whose comparison with a set bottom or a set top
    raises [DimensionalityError] gives [Invalid]. *)
Theorem validate_errors (self : _PintValidator) (input : string) (pos : Z) :
  (forall e, Quantity_of_str input = Raise e ->
     validate self input pos = Ok (returned Intermediate input pos))
  /\
  (forall q, Quantity_of_str input = Ok q ->
     ((exists b, bottom self = Some b /\ lt q b = Raise DimensionalityError) \/
      (exists t, top self = Some t /\ gt q t = Raise DimensionalityError)) ->
     validate self input pos = Ok (returned Invalid input pos)).
Proof.
  split.
  - intros e He. apply validate_of__validate. now apply _validate_unparsed with (e := e).
  - intros q Hq Hraise. apply validate_of__validate.
    rewrite (@_validate_parsed self input pos q Hq).
    replace (rejects (bottom self) (fun b => lt q b) || rejects (top self) (fun t => gt q t))
      with true; [ reflexivity | ].
    symmetry. apply orb_true_iff. unfold rejects.
    destruct Hraise as [(b & -> & ->)|(t & -> & ->)]; [ now left | now right ].
Qed.

End Props.

Lemma validate_limits_witness :
  @validate Demo.pint Demo.qt_api2 Examples.v0_100 "200" 3 = Ok (Tuple3 Invalid "200" 3) /\
  @validate Demo.pint Demo.qt_api2 Examples.v0_100 "50" 3 = Ok (Tuple3 Acceptable "50" 3) /\
  @validate Demo.pint Demo.qt_api1 Examples.v0_100 "50" 3 = Ok (Tuple2 Acceptable 3).
Proof.
  split; [ | split ].
  - refine (proj2 (proj1 (@validate_limits Demo.pint Demo.qt_api2 Examples.v0_100 "200" 3
                            (Demo.f 200, EmptyString) eq_refl) _)).
    right. exists (Demo.f 100, EmptyString). split; reflexivity.
  - refine (proj2 (proj2 (@validate_limits Demo.pint Demo.qt_api2 Examples.v0_100 "50" 3
                            (Demo.f 50, EmptyString) eq_refl) _ _)).
    + intros b Hb. injection Hb as <-. reflexivity.
    + intros t Ht. injection Ht as <-. reflexivity.
  - refine (proj2 (proj2 (@validate_limits Demo.pint Demo.qt_api1 Examples.v0_100 "50" 3
                            (Demo.f 50, EmptyString) eq_refl) _ _)).
    + intros b Hb. injection Hb as <-. reflexivity.
    + intros t Ht. injection Ht as <-. reflexivity.
Defined.

Lemma validate_errors_witness :
  @validate Demo.pint Demo.qt_api2 Examples.v0_100 "fast" 0 = Ok (Tuple3 Intermediate "fast" 0) /\
  @validate Demo.pint Demo.qt_api2 Examples.v0_100 "5 mm" 0 = Ok (Tuple3 Invalid "5 mm" 0).
Proof.
  split.
  - exact (proj1 (@validate_errors Demo.pint Demo.qt_api2 Examples.v0_100 "fast" 0)
                 (OtherError "UndefinedUnitError") eq_refl).
  - refine (proj2 (@validate_errors Demo.pint Demo.qt_api2 Examples.v0_100 "5 mm" 0)
                  (Demo.f 5, "mm"%string) eq_refl _).
    left. exists (Demo.f 0, EmptyString). split; reflexivity.
Defined.

End PintValidatorProps.

(** ** Float comparisons *)

Module FloatFacts.

Lemma SFcompare_antisym (a b : float) :
  SFcompare b a = option_map CompOpp (SFcompare a b).
Proof.
  destruct a as [sa|sa| |sa ma ea], b as [sb|sb| |sb mb eb]; cbn;
    try reflexivity; try (destruct sa; reflexivity); try (destruct sb; reflexivity);
    try (destruct sa, sb; reflexivity).
  destruct sa, sb; cbn; try reflexivity; f_equal;
    rewrite (Z.compare_antisym ea eb);
    destruct (ea ?= eb)%Z; cbn; try reflexivity.
  - f_equal. exact (eq_sym (Pos.compare_cont_antisym ma mb Eq)).
  - exact (eq_sym (Pos.compare_cont_antisym ma mb Eq)).
Qed.

(** Two floats that compare equal ([==]) compare alike with any third. *)
Lemma float_eq_compare_l (a b c : float) :
  float_eq a b = true -> SFcompare a c = SFcompare b c.
Proof.
  unfold float_eq, SFeqb.
  destruct a as [sa|sa| |sa ma ea], b as [sb|sb| |sb mb eb]; cbn;
    try discriminate; try (destruct sa; discriminate); try (destruct sb; discriminate);
    try reflexivity.
  - destruct sa, sb; try discriminate; reflexivity.
  - destruct sa, sb; try discriminate.
    + destruct (ea ?= eb)%Z eqn:E; try discriminate.
      apply Z.compare_eq in E. subst eb.
      destruct (Pos.compare_cont Eq ma mb) eqn:P; try discriminate.
      apply Pos.compare_eq in P. now subst mb.
    + destruct (ea ?= eb)%Z eqn:E; try discriminate.
      apply Z.compare_eq in E. subst eb.
      destruct (Pos.compare_cont Eq ma mb) eqn:P; try discriminate.
      apply Pos.compare_eq in P. now subst mb.
Qed.

Lemma float_eq_compare_r (a b c : float) :
  float_eq a b = true -> SFcompare c a = SFcompare c b.
Proof.
  intros H. rewrite (SFcompare_antisym a c), (SFcompare_antisym b c).
  now rewrite (float_eq_compare_l a b c H).
Qed.

Lemma float_eq_sym (a b : float) : float_eq a b = true -> float_eq b a = true.
Proof.
  unfold float_eq, SFeqb. rewrite (SFcompare_antisym a b).
  now destruct (SFcompare a b) as [[]|].
Qed.

(** [x == y] excludes [x < y] and [y < x]. *)
Lemma float_eq_not_lt (a b : float) :
  float_eq a b = true -> float_lt a b = false /\ float_lt b a = false.
Proof.
  unfold float_eq, float_lt, SFeqb, SFltb. rewrite (SFcompare_antisym a b).
  now destruct (SFcompare a b) as [[]|].
Qed.

Lemma float_eq_le (a b : float) :
  float_eq a b = true -> float_le a b = true /\ float_le b a = true.
Proof.
  unfold float_eq, float_le, SFeqb, SFleb. rewrite (SFcompare_antisym a b).
  now destruct (SFcompare a b) as [[]|].
Qed.

Lemma SFcompare_defined (a b : float) :
  is_nan a = false -> is_nan b = false -> exists c, SFcompare a b = Some c.
Proof.
  destruct a, b; try discriminate; intros _ _; cbn; eexists; reflexivity.
Qed.

(** Away from NaN the order is total: [a <= b] is [not (b < a)]. *)
Lemma float_le_not_lt (a b : float) :
  is_nan a = false -> is_nan b = false -> float_le a b = negb (float_lt b a).
Proof.
  intros Ha Hb. unfold float_le, float_lt, SFleb, SFltb.
  rewrite (SFcompare_antisym a b).
  destruct (SFcompare_defined a b Ha Hb) as [c ->]. now destruct c.
Qed.

End FloatFacts.

(** ** [TaurusValueLineEdit]: values, alarms and limits *)

Module ValueLineEditProps.
Import Qt Pint Taurus PintValidator TaurusValueLineEdit FloatFacts.

Section Props.
Context {pint : Pint.API} {qt : Qt.Env} {taurus : Taurus.Model}.

Lemma getValue_total (self : widget) : exists v, getValue self = Ok v.
Proof.
  unfold getValue, getattr_encode.
  destruct (getModelObj self) as [m|]; cbn; [ | now eexists ].
  destruct (encode m (text self)); cbn; now eexists.
Qed.

Lemma _inAlarm_total (self : widget) (v : value) : exists b, _inAlarm self v = Ok b.
Proof. unfold _inAlarm. destruct (float_ v); cbn; now eexists. Qed.

Lemma _outOfRange_total (self : widget) (v : value) : exists b, _outOfRange self v = Ok b.
Proof.
  unfold _outOfRange. destruct (validator self) as [val|].
  - destruct (PintValidatorProps.validate_total val (str_ v) 0) as [st ->]. cbn. now eexists.
  - destruct (float_ v); cbn; now eexists.
Qed.

(** C6: [_inAlarm(v)] is [True] exactly when [float(v)] is not strictly
    between the two alarm bounds; a value equal to either bound is in
    alarm; and a [v] that [float] rejects gives [False]. *)
Theorem inAlarm_spec (self : widget) (v : value) :
  (forall x, float_ v = Ok x ->
     (exists b, _inAlarm self v = Ok b /\
        (b = true <->
         ~ (float_lt (__minAlarm self) x = true /\ float_lt x (__maxAlarm self) = true)))
     /\
     (float_eq x (__minAlarm self) = true \/ float_eq x (__maxAlarm self) = true ->
      _inAlarm self v = Ok true))
  /\
  (forall e, float_ v = Raise e -> _inAlarm self v = Ok false).
Proof.
  split.
  - intros x Hx. unfold _inAlarm, strictly_between. rewrite Hx. cbn. split.
    + eexists. split; [ reflexivity | ].
      rewrite negb_true_iff, andb_false_iff.
      destruct (float_lt (__minAlarm self) x), (float_lt x (__maxAlarm self));
        intuition congruence.
    + intros [H|H]; apply float_eq_not_lt in H; destruct H as [H1 H2].
      * now rewrite H2.
      * rewrite H1. now rewrite andb_false_r.
  - intros e He. unfold _inAlarm. now rewrite He.
Qed.

(** C8: without a validator, [_outOfRange(v)] is [True] exactly when
    [float(v)] is not inside the closed interval of the two limits (away
    from NaN: exactly when it is below the minimum or above the maximum);
    a value equal to a limit of a non-empty interval is accepted; and a
    [v] that [float] rejects gives [False], nothing being raised. *)
Theorem outOfRange_fallback (self : widget) (v : value) :
  validator self = None ->
  (forall x, float_ v = Ok x ->
     (exists b, _outOfRange self v = Ok b /\
        (b = true <->
         ~ (float_le (__minLimit self) x = true /\ float_le x (__maxLimit self) = true)) /\
        (is_nan x = false -> is_nan (__minLimit self) = false ->
         is_nan (__maxLimit self) = false ->
         (b = true <->
          float_lt x (__minLimit self) = true \/ float_lt (__maxLimit self) x = true)))
     /\
     (float_le (__minLimit self) (__maxLimit self) = true ->
      float_eq x (__minLimit self) = true \/ float_eq x (__maxLimit self) = true ->
      _outOfRange self v = Ok false))
  /\
  (forall e, float_ v = Raise e -> _outOfRange self v = Ok false).
Proof.
  intros Hval. unfold _outOfRange, within. rewrite Hval. split.
  - intros x Hx. rewrite Hx. cbn. split.
    + eexists. split; [ reflexivity | split ].
      * rewrite negb_true_iff, andb_false_iff.
        destruct (float_le (__minLimit self) x), (float_le x (__maxLimit self));
          intuition congruence.
      * intros Nx Nlo Nhi.
        rewrite (float_le_not_lt _ _ Nlo Nx), (float_le_not_lt _ _ Nx Nhi).
        rewrite negb_true_iff, andb_false_iff, !negb_false_iff. tauto.
    + intros Hne [H|H].
      * unfold float_le, SFleb in *.
        rewrite (float_eq_compare_l x (__minLimit self) (__maxLimit self) H).
        apply float_eq_sym in H. apply float_eq_le in H. destruct H as [H _].
        unfold float_le, SFleb in H. rewrite H. cbn.
        now destruct (SFcompare (__minLimit self) (__maxLimit self)) as [[]|].
      * unfold float_le, SFleb in *.
        rewrite (float_eq_compare_r x (__maxLimit self) (__minLimit self) H).
        apply float_eq_le in H. destruct H as [H _].
        unfold float_le, SFleb in H. rewrite H.
        now destruct (SFcompare (__minLimit self) (__maxLimit self)) as [[]|].
  - intros e He. now rewrite He.
Qed.

(** C4: on a [Config] event from an attached attribute, [handleEvent]
    stores the attribute's alarm bounds in the alarm fields and its range
    bounds in the limit fields, and then installs a validator whose bottom
    and top are the stored minimum and maximum limits when the value's data
    type is [Integer] or [Float], and no validator for any other type. *)
Theorem handleEvent_Config (self : widget) (evt_value : EventValue) (attr : ModelObj) :
  getModelObj self = Some attr ->
  exists self',
    handleEvent Config evt_value self = (Ok tt, self') /\
    (__minAlarm self', __maxAlarm self') = alarm attr /\
    (__minLimit self', __maxLimit self') = range attr /\
    ((type evt_value = Integer \/ type evt_value = Taurus.Float) ->
     exists val, validator self' = Some val /\
       bottom val = Some (Quantity_of_float (__minLimit self')) /\
       top val = Some (Quantity_of_float (__maxLimit self'))) /\
    ((type evt_value <> Integer /\ type evt_value <> Taurus.Float) ->
     validator self' = None).
Proof.
  intros Hattr. unfold handleEvent, mbind, read. cbn. rewrite Hattr. cbn.
  unfold _updateValidator, mbind, read, update, do_call, update.
  destruct (type evt_value) eqn:T; cbn; eexists; (split; [ reflexivity | ]); cbn.
  all: split; [ now destruct (alarm attr) | ].
  all: split; [ now destruct (range attr) | ].
  all: split.
  all: try (intros _; eexists; repeat split; reflexivity).
  all: try (intros [? ?]; congruence).
  all: try (intros [?|?]; congruence).
Qed.

End Props.

Lemma inAlarm_spec_witness :
  _inAlarm (Examples.w0 "10") (Demo.VInt 10) = Ok true /\
  _inAlarm (Examples.w0 "x") Demo.VNone = Ok false.
Proof.
  split.
  - refine (proj2 (proj1 (@inAlarm_spec Demo.pint Demo.model (Examples.w0 "10") (Demo.VInt 10))
                         (Demo.f 10) eq_refl) _).
    left. reflexivity.
  - exact (proj2 (@inAlarm_spec Demo.pint Demo.model (Examples.w0 "x") Demo.VNone) TypeError eq_refl).
Defined.

Lemma outOfRange_fallback_witness :
  @_outOfRange Demo.pint Demo.qt_api2 Demo.model (Examples.w0 "100") (Demo.VInt 100) = Ok false /\
  @_outOfRange Demo.pint Demo.qt_api2 Demo.model (Examples.w0 "x") Demo.VNone = Ok false.
Proof.
  pose proof (@outOfRange_fallback Demo.pint Demo.qt_api2 Demo.model (Examples.w0 "100")
                (Demo.VInt 100) eq_refl) as [H1 _].
  pose proof (@outOfRange_fallback Demo.pint Demo.qt_api2 Demo.model (Examples.w0 "x")
                Demo.VNone eq_refl) as [_ H2].
  split.
  - refine (proj2 (H1 (Demo.f 100) eq_refl) eq_refl _). right. reflexivity.
  - exact (H2 TypeError eq_refl).
Defined.

Lemma handleEvent_Config_witness :
  exists self',
    @handleEvent Demo.pint Demo.model Config {| type := Integer |} (Examples.w0 "5") = (Ok tt, self') /\
    validator self' = Some Examples.v0_100.
Proof.
  destruct (@handleEvent_Config Demo.pint Demo.model (Examples.w0 "5") {| type := Integer |}
              Demo.attr0 eq_refl) as (self' & Hrun & _ & Hrange & Hval & _).
  exists self'. split; [ exact Hrun | ].
  destruct (Hval (or_introl eq_refl)) as (val & Hv & Hb & Ht).
  rewrite Hv. f_equal. destruct val as [t b]. cbn in Hb, Ht. subst t b.
  cbn in Hrange. injection Hrange as -> ->. reflexivity.
Defined.

End ValueLineEditProps.

(** ** [TaurusValueLineEdit.updateStyle] *)

Module StyleProps.
Import Qt Pint Taurus PintValidator TaurusValueLineEdit.

Section Props.
Context {pint : Pint.API} {qt : Qt.Env} {taurus : Taurus.Model}.

(** Recording a call changes none of the fields the style depends on. *)
Lemma getValue_record (c : call) (self : widget) :
  getValue (record c self) = getValue self.
Proof. reflexivity. Qed.

Lemma _outOfRange_record (c : call) (self : widget) (v : value) :
  _outOfRange (record c self) v = _outOfRange self v.
Proof. reflexivity. Qed.

Lemma _inAlarm_record (c : call) (self : widget) (v : value) :
  _inAlarm (record c self) v = _inAlarm self v.
Proof. reflexivity. Qed.

(** C2: for every widget state [updateStyle] returns, having set the
    style sheet to the format filled with a colour and a weight chosen in
    this order: out of range gives colour gray; otherwise in alarm gives
    orange, bold exactly when operations are pending; otherwise pending
    operations give blue and bold; otherwise black and normal. *)
Theorem updateStyle_priority (self : widget) :
  exists v outOfRange inAlarm color weight,
    getValue self = Ok v /\
    _outOfRange self v = Ok outOfRange /\
    _inAlarm self v = Ok inAlarm /\
    updateStyle self =
      (Ok tt, setStyleSheet (style_format color weight) (record Base_updateStyle self)) /\
    (outOfRange = true -> color = "gray"%string) /\
    (outOfRange = false -> inAlarm = true ->
     color = "orange"%string /\
     (weight = "bold"%string <-> hasPendingOperations self = true)) /\
    (outOfRange = false -> inAlarm = false -> hasPendingOperations self = true ->
     color = "blue"%string /\ weight = "bold"%string) /\
    (outOfRange = false -> inAlarm = false -> hasPendingOperations self = false ->
     color = "black"%string /\ weight = "normal"%string).
Proof.
  destruct (ValueLineEditProps.getValue_total self) as [v Hv].
  destruct (ValueLineEditProps._outOfRange_total self v) as [o Ho].
  destruct (ValueLineEditProps._inAlarm_total self v) as [a Ha].
  exists v, o, a.
  assert (updateStyle self =
          (Ok tt,
           setStyleSheet
             (style_format
                (if o then "gray" else if a then "orange"
                 else if hasPendingOperations self then "blue" else "black")%string
                (if o then "normal" else if hasPendingOperations self then "bold"
                 else "normal")%string)
             (record Base_updateStyle self))) as Hrun.
  { unfold updateStyle. run_M.
    rewrite getValue_record, Hv, _outOfRange_record, Ho.
    destruct o; [ reflexivity | ].
    rewrite _inAlarm_record, Ha.
    change (hasPendingOperations (record Base_updateStyle self))
      with (hasPendingOperations self).
    destruct a, (hasPendingOperations self); reflexivity. }
  do 2 eexists. repeat (split; [ eassumption | ]).
  destruct o, a, (hasPendingOperations self);
    repeat split; intros; try reflexivity; try discriminate.
Qed.

End Props.

Example style_out_of_range :
  Examples.styled "500" true = "TaurusValueLineEdit {color: gray; font-weight: normal}"%string.
Proof. reflexivity. Qed.

Example style_alarm_pending :
  Examples.styled "95" true = "TaurusValueLineEdit {color: orange; font-weight: bold}"%string /\
  Examples.styled "95" false = "TaurusValueLineEdit {color: orange; font-weight: normal}"%string.
Proof. split; reflexivity. Qed.

Example style_pending :
  Examples.styled "50" true = "TaurusValueLineEdit {color: blue; font-weight: bold}"%string.
Proof. reflexivity. Qed.

Example style_default :
  Examples.styled "50" false = "TaurusValueLineEdit {color: black; font-weight: normal}"%string /\
  Examples.styled "fifty" false = "TaurusValueLineEdit {color: black; font-weight: normal}"%string.
Proof. split; reflexivity. Qed.

End StyleProps.

(** ** Wheel and key steps *)

Module StepProps.
Import Qt Pint Taurus PintValidator TaurusValueLineEdit.

Section Props.
Context {pint : Pint.API} {qt : Qt.Env} {taurus : Taurus.Model}.

Lemma _stepBy_ok (self : widget) (model : ModelObj) (steps : num) (current sum : value) :
  getModelObj self = Some model ->
  getValue self = Ok current ->
  add current steps = Ok sum ->
  _stepBy steps self = (Ok tt, setText (strip (str_ (displayValue model sum))) self).
Proof.
  intros Hm Hv Hs. unfold _stepBy, setValue. run_M.
  now rewrite Hv, Hs, Hm.
Qed.

(** C3, as the code has it: on a writable widget with a numeric model, a
    wheel event (wheel events enabled) steps by the delta floor-divided by
    8 and then by 15, and Key_Up / Key_Down step by +1 / -1; the step is
    multiplied by 10 when Control is held and, only when Control is not
    held, by 0.1 when Alt is held on a float model; the event is accepted
    and [_stepBy] sets the text to the display of [getValue() + steps]. *)
Theorem step_events (self : widget) (model : ModelObj) :
  isReadOnly self = false ->
  getModelObj self = Some model ->
  isNumeric model = true ->
  (forall evt, getEnableWheelEvent self = true ->
     wheelEvent evt self =
     _stepBy (Steps.scaled (wheel_modifiers evt) model (delta evt / 8 / 15))
             (record QWheelEvent_accept self))
  /\
  (forall evt, key evt = Key_Up ->
     keyPressEvent evt self =
     _stepBy (Steps.scaled (key_modifiers evt) model 1) (record QKeyEvent_accept self))
  /\
  (forall evt, key evt = Key_Down ->
     keyPressEvent evt self =
     _stepBy (Steps.scaled (key_modifiers evt) model (-1)) (record QKeyEvent_accept self))
  /\
  (forall c steps current sum,
     getValue self = Ok current ->
     add current steps = Ok sum ->
     _stepBy steps (record c self) =
     (Ok tt, setText (strip (str_ (displayValue model sum))) (record c self))).
Proof.
  intros Hro Hm Hnum. repeat split.
  - intros evt Hwheel. unfold wheelEvent, Steps.scaled, int_div. run_M.
    rewrite Hwheel, Hro, Hm, Hnum. cbn [negb orb].
    destruct (testFlag (wheel_modifiers evt) ControlModifier); [ reflexivity | ].
    destruct (testFlag (wheel_modifiers evt) AltModifier && isFloat model); reflexivity.
  - intros evt Hk. unfold keyPressEvent. rewrite Hk.
    change (Z.eqb Key_Up Key_Return || Z.eqb Key_Up Key_Enter) with false.
    change (Z.eqb Key_Up Key_Up) with true.
    unfold Steps.scaled. run_M. cbv beta iota.
    rewrite Hro, Hm, Hnum. cbn [negb].
    destruct (testFlag (key_modifiers evt) ControlModifier); [ reflexivity | ].
    destruct (testFlag (key_modifiers evt) AltModifier && isFloat model); reflexivity.
  - intros evt Hk. unfold keyPressEvent. rewrite Hk.
    change (Z.eqb Key_Down Key_Return || Z.eqb Key_Down Key_Enter) with false.
    change (Z.eqb Key_Down Key_Up) with false.
    change (Z.eqb Key_Down Key_Down) with true.
    unfold Steps.scaled. run_M. cbv beta iota.
    rewrite Hro, Hm, Hnum. cbn [negb].
    destruct (testFlag (key_modifiers evt) ControlModifier); [ reflexivity | ].
    destruct (testFlag (key_modifiers evt) AltModifier && isFloat model); reflexivity.
  - intros c steps current sum Hv Hs.
    now apply _stepBy_ok with (current := current).
Qed.

End Props.

(** On text "5" one notch with Control and Alt steps by 10, to "15". *)
Lemma step_events_witness :
  @wheelEvent Demo.pint Demo.model Examples.ctrl_alt_notch (Examples.w0 "5") =
  (Ok tt, setText "15" (record QWheelEvent_accept (Examples.w0 "5"))).
Proof.
  pose proof (@step_events Demo.pint Demo.model (Examples.w0 "5") Demo.attr0
                eq_refl eq_refl eq_refl) as (Hwheel & _ & _ & Hstep).
  rewrite (Hwheel Examples.ctrl_alt_notch eq_refl).
  exact (Hstep QWheelEvent_accept (Int 10) (Demo.VInt 5) (Demo.VInt 15) eq_refl eq_refl).
Defined.

(** C3 as stated fails with Control and Alt both held on a float model:
    the handler steps by the int 10 (text "5" becomes "15"), where Alt's
    factor [.1] applied as well would step by the float 1.0 (text "5"
    would become the display of 6.0). *)
Lemma wheel_ctrl_alt_counterexample :
  testFlag (wheel_modifiers Examples.ctrl_alt_notch) ControlModifier = true /\
  testFlag (wheel_modifiers Examples.ctrl_alt_notch) AltModifier = true /\
  @isFloat Demo.model Demo.attr0 = true /\
  @wheelEvent Demo.pint Demo.model Examples.ctrl_alt_notch (Examples.w0 "5") =
    @_stepBy Demo.pint Demo.model (Int 10)
      (record QWheelEvent_accept (Examples.w0 "5")) /\
  @Steps.scaled_independently Demo.model (wheel_modifiers Examples.ctrl_alt_notch) Demo.attr0
    (delta Examples.ctrl_alt_notch / 8 / 15) = Py.Float (float_of_int 1) /\
  text (snd (@wheelEvent Demo.pint Demo.model Examples.ctrl_alt_notch (Examples.w0 "5")))
    = "15"%string /\
  text (snd (@_stepBy Demo.pint Demo.model
               (@Steps.scaled_independently Demo.model (wheel_modifiers Examples.ctrl_alt_notch) Demo.attr0
                  (delta Examples.ctrl_alt_notch / 8 / 15))
               (record QWheelEvent_accept (Examples.w0 "5"))))
    = "6755399441055744*2**-50"%string.
Proof. repeat split; vm_compute; reflexivity. Qed.

End StepProps.

(** ** Signals: when [writeValue] runs *)

Module SignalProps.
Import Qt Pint Taurus PintValidator TaurusValueLineEdit.

Section Props.
Context {pint : Pint.API} {qt : Qt.Env} {taurus : Taurus.Model}.

(** C5: with nesting depth 2 or more available, delivering [textChanged]
    returns having only emitted ['valueChanged'], whose slot is
    [updatePendingOperations]; [returnPressed] runs [writeValue];
    [editingFinished] runs it only under [autoApply]; and over all four
    signals [writeValue] runs exactly in those two cases. *)
Theorem writeValue_only_on_return_or_autoApply (self : widget) (fuel : nat) :
  emit (S (S fuel)) textChanged self =
    (Ok tt, record_all [emitted textChanged; emitted sig_valueChanged;
                        updatePendingOperations] self)
  /\
  emit (S (S fuel)) returnPressed self =
    (Ok tt, record_all [emitted returnPressed; writeValue] self)
  /\
  emit (S (S fuel)) editingFinished self =
    (Ok tt, record_all (emitted editingFinished ::
                        if _autoApply self then [writeValue] else []) self)
  /\
  (forall s, exists trace,
      emit (S (S fuel)) s self = (Ok tt, record_all trace self) /\
      (In writeValue trace <->
       s = returnPressed \/ (s = editingFinished /\ _autoApply self = true))).
Proof.
  assert (emit (S (S fuel)) editingFinished self =
          (Ok tt, record_all (emitted editingFinished ::
                              if _autoApply self then [writeValue] else []) self)) as Hfin.
  { cbn. unfold mbind, do_call, update, _onEditingFinished, mbind, read. cbn.
    now destruct (_autoApply self). }
  repeat split; try reflexivity; try exact Hfin.
  intros s. destruct s.
  - exists [emitted textChanged; emitted sig_valueChanged; updatePendingOperations].
    split; [ reflexivity | ]. cbn. split.
    + intros [H|[H|[H|[]]]]; discriminate.
    + intros [H|[H _]]; discriminate.
  - exists [emitted returnPressed; writeValue].
    split; [ reflexivity | ]. cbn. split; [ now left | now right; left ].
  - exists [emitted sig_valueChanged; updatePendingOperations].
    split; [ reflexivity | ]. cbn. split.
    + intros [H|[H|[]]]; discriminate.
    + intros [H|[H _]]; discriminate.
  - eexists. split; [ exact Hfin | ]. destruct (_autoApply self); cbn; split.
    + intros _. now right.
    + intros _. now right; left.
    + intros [H|[]]; discriminate.
    + intros [H|[_ H]]; discriminate.
Qed.

(** Without nesting depth left the delivery raises, as the interpreter
    does at its recursion limit. *)
Lemma emit_out_of_depth (self : widget) (s : signal) :
  emit 0 s self = (Raise RuntimeError, self).
Proof. reflexivity. Qed.

End Props.
End SignalProps.

(** ** [getValue] of both widgets *)

Module GetValueProps.
Import Taurus.

Section Props.
Context {pint : Pint.API} {taurus : Taurus.Model}.

(** C9: neither [getValue] raises, whatever the text and the model: each
    returns a value; with no model object, and with a model whose [encode]
    raises on the text, that value is [None]. *)
Theorem getValue_never_raises :
  (forall self : TaurusValueLineEdit.widget,
     (exists v, TaurusValueLineEdit.getValue self = Ok v) /\
     (TaurusValueLineEdit.getModelObj self = None ->
      TaurusValueLineEdit.getValue self = Ok None_) /\
     (forall m e, TaurusValueLineEdit.getModelObj self = Some m ->
        encode m (TaurusValueLineEdit.text self) = Raise e ->
        TaurusValueLineEdit.getValue self = Ok None_) /\
     (forall m v, TaurusValueLineEdit.getModelObj self = Some m ->
        encode m (TaurusValueLineEdit.text self) = Ok v ->
        TaurusValueLineEdit.getValue self = Ok v))
  /\
  (forall self : TaurusConfigLineEdit.widget,
     (exists v, TaurusConfigLineEdit.getValue self = Ok v) /\
     (TaurusConfigLineEdit.getModelObj self = None ->
      TaurusConfigLineEdit.getValue self = Ok None_) /\
     (forall m e, TaurusConfigLineEdit.getModelObj self = Some m ->
        encode m (TaurusConfigLineEdit.text self) = Raise e ->
        TaurusConfigLineEdit.getValue self = Ok None_) /\
     (forall m v, TaurusConfigLineEdit.getModelObj self = Some m ->
        encode m (TaurusConfigLineEdit.text self) = Ok v ->
        TaurusConfigLineEdit.getValue self = Ok v)).
Proof.
  split; intros self.
  - unfold TaurusValueLineEdit.getValue, TaurusValueLineEdit.getattr_encode.
    repeat split.
    + destruct (TaurusValueLineEdit.getModelObj self) as [m|]; cbn; [ | now eexists ].
      destruct (encode m (TaurusValueLineEdit.text self)); cbn; now eexists.
    + now intros ->.
    + intros m e -> He. cbn. now rewrite He.
    + intros m v -> Hv. cbn. now rewrite Hv.
  - unfold TaurusConfigLineEdit.getValue, TaurusConfigLineEdit.getattr_encode.
    repeat split.
    + destruct (TaurusConfigLineEdit.getModelObj self) as [m|]; cbn; [ | now eexists ].
      destruct (encode m (TaurusConfigLineEdit.text self)); cbn; now eexists.
    + now intros ->.
    + intros m e -> He. cbn. now rewrite He.
    + intros m v -> Hv. cbn. now rewrite Hv.
Qed.

End Props.

Lemma getValue_never_raises_witness :
  @TaurusValueLineEdit.getValue Demo.pint Demo.model (Examples.w0 "volts") = Ok Demo.VNone /\
  @TaurusConfigLineEdit.getValue Demo.model (Examples.c0 "7" None) = Ok Demo.VNone /\
  @TaurusConfigLineEdit.getValue Demo.model (Examples.c0 "7" (Some Demo.attr0)) = Ok (Demo.VInt 7).
Proof.
  pose proof (@getValue_never_raises Demo.pint Demo.model) as [Hv Hc].
  split; [ | split ].
  - exact (proj1 (proj2 (proj2 (Hv (Examples.w0 "volts"))))
                 Demo.attr0 ValueError eq_refl eq_refl).
  - exact (proj1 (proj2 (Hc (Examples.c0 "7" None))) eq_refl).
  - exact (proj2 (proj2 (proj2 (Hc (Examples.c0 "7" (Some Demo.attr0)))))
                 Demo.attr0 (Demo.VInt 7) eq_refl eq_refl).
Defined.

End GetValueProps.

(** ** [TaurusConfigLineEdit.setModel] *)

Module SetModelProps.
Import Taurus TaurusConfigLineEdit.

Lemma rfind_from_absent (c : ascii) (s : string) (i last : Z) :
  contains c s = false -> rfind_from c s i last = last.
Proof.
  revert i last. induction s as [|a s IH]; intros i last H; cbn in *; [ reflexivity | ].
  apply orb_false_iff in H. destruct H as [Ha Hs].
  rewrite Ha. now apply IH.
Qed.

Lemma rfind_from_last (c : ascii) (pre post : string) (i last : Z) :
  contains c post = false ->
  rfind_from c (pre ++ String c post) i last = (i + Z.of_nat (String.length pre))%Z.
Proof.
  intros Hpost. revert i last.
  induction pre as [|a pre IH]; intros i last.
  - cbn. rewrite Ascii.eqb_refl. rewrite (rfind_from_absent c post _ _ Hpost). lia.
  - cbn [append rfind_from String.length]. rewrite IH. lia.
Qed.

Lemma drop_prefix (pre : string) (c : ascii) (post : string) :
  drop (S (String.length pre)) (pre ++ String c post) = post.
Proof. induction pre as [|a pre IH]; [ reflexivity | exact IH ]. Qed.

Lemma append_length (a b : string) :
  String.length (a ++ b) = (String.length a + String.length b)%nat.
Proof. induction a as [|x a IH]; cbn; [ reflexivity | now rewrite IH ]. Qed.

(** [s[s.rfind(c)+1:]] is what follows the last [c]. *)
Lemma slice_after_last (c : ascii) (pre post : string) :
  contains c post = false ->
  slice_from (rfind c (pre ++ String c post) + 1) (pre ++ String c post) = post.
Proof.
  intros Hpost. unfold rfind. rewrite (rfind_from_last c pre post 0 (-1) Hpost).
  unfold slice_from. rewrite append_length. cbn [String.length].
  replace (0 + Z.of_nat (String.length pre) + 1 <? 0)%Z with false
    by (symmetry; apply Z.ltb_ge; lia).
  rewrite Z.min_l by lia.
  replace (Z.to_nat (0 + Z.of_nat (String.length pre) + 1)) with (S (String.length pre)) by lia.
  apply drop_prefix.
Qed.

(** Without any [c], [rfind] is [-1] and the slice is the whole string. *)
Lemma slice_no_separator (c : ascii) (s : string) :
  contains c s = false -> slice_from (rfind c s + 1) s = s.
Proof.
  intros H. unfold rfind. rewrite (rfind_from_absent c s 0 (-1) H).
  unfold slice_from. cbn. now destruct (Z.of_nat (String.length s)).
Qed.

(** Every string that has a [c] splits at its last one. *)
Lemma last_separator_split (c : ascii) (s : string) :
  contains c s = true ->
  exists pre post, s = (pre ++ String c post)%string /\ contains c post = false.
Proof.
  induction s as [|a s IH]; cbn; [ discriminate | ].
  destruct (contains c s) eqn:Hs.
  - intros _. destruct (IH eq_refl) as (pre & post & -> & Hpost).
    exists (String a pre), post. now split.
  - rewrite orb_false_r. intros Ha. apply Ascii.eqb_eq in Ha. subst a.
    exists EmptyString, s. now split.
Qed.

Section Props.
Context {taurus : Taurus.Model}.

(** C10: for every model name [s], [setModel] returns with
    [_configParam] the lower-cased part of [s] after its last ['=']: for
    [s = pre + '=' + post] with no ['='] in [post] it is [post] lower-cased,
    and for [s] without ['='] it is all of [s] lower-cased; the [try] body
    never raises, so the handler that assigns [''] is not reached. *)
Theorem setModel_configParam (self : widget) (s : string) :
  (exists p, configParam_of s = Ok p /\
     exists self', setModel s self = Ok self' /\ _configParam self' = p)
  /\
  (forall pre post, s = (pre ++ String "=" post)%string -> contains "=" post = false ->
     exists self', setModel s self = Ok self' /\ _configParam self' = lower post)
  /\
  (contains "=" s = false ->
     exists self', setModel s self = Ok self' /\ _configParam self' = lower s).
Proof.
  repeat split.
  - eexists. split; [ reflexivity | ]. eexists. split; reflexivity.
  - intros pre post -> Hpost. eexists. split; [ reflexivity | ]. cbn.
    now rewrite (slice_after_last "=" pre post Hpost).
  - intros Hs. eexists. split; [ reflexivity | ]. cbn.
    now rewrite (slice_no_separator "=" s Hs).
Qed.

End Props.

Lemma setModel_configParam_witness :
  (exists self', @setModel Demo.model "sys/tg_test/1/double_scalar?configuration=Unit"
                   (Examples.c0 "" None) = Ok self' /\
                 _configParam self' = "unit"%string) /\
  (exists self', @setModel Demo.model "Label" (Examples.c0 "" None) = Ok self' /\
                 _configParam self' = "label"%string).
Proof.
  split.
  - exact (proj1 (proj2 (@setModel_configParam Demo.model (Examples.c0 "" None)
                           "sys/tg_test/1/double_scalar?configuration=Unit"))
                 "sys/tg_test/1/double_scalar?configuration"%string "Unit"%string
                 eq_refl eq_refl).
  - exact (proj2 (proj2 (@setModel_configParam Demo.model (Examples.c0 "" None) "Label"))
                 eq_refl).
Defined.

End SetModelProps.

(* ================================================================== *)
(** * Further properties *)
(* ================================================================== *)

(** ** More on [_PintValidator] *)

Module PintValidatorMoreProps.
Import Qt Pint PintValidator.

Section Props.
Context {pint : Pint.API}.

(** X1: whatever the limits, [validate] answers [Intermediate] exactly
    for the inputs that do not parse as a quantity. *)
Theorem intermediate_iff_unparsed {qt : Qt.Env}
        (self : _PintValidator) (input : string) (pos : Z) :
  exists t, validate self input pos = Ok t /\
    (item0 t = Intermediate <-> exists e, Quantity_of_str input = Raise e).
Proof.
  destruct (Quantity_of_str input) as [q|e] eqn:E.
  - eexists. split.
    + apply PintValidatorProps.validate_of__validate.
      exact (PintValidatorProps._validate_parsed self input pos q E).
    + rewrite PintValidatorProps.item0_returned. split.
      * now destruct (rejects (bottom self) _ || rejects (top self) _).
      * intros [e' He']. discriminate.
  - eexists. split.
    + apply PintValidatorProps.validate_of__validate.
      exact (PintValidatorProps._validate_unparsed self input pos e E).
    + rewrite PintValidatorProps.item0_returned. split; [ now exists e | reflexivity ].
Qed.

(** X2: a validator on which no limit was ever set (as constructed)
    never answers [Invalid]: every input that parses is [Acceptable]. *)
Theorem no_limits_accepts {qt : Qt.Env} (input : string) (pos : Z) (q : Quantity) :
  Quantity_of_str input = Ok q ->
  validate new input pos = Ok (returned Acceptable input pos).
Proof.
  intros Hq. apply PintValidatorProps.validate_of__validate.
  now rewrite (PintValidatorProps._validate_parsed new input pos q Hq).
Qed.

(** X3: the two string APIs agree: the tuple [validate] returns under the
    old API is the one of the new API with the input string dropped. *)
Theorem validate_api_agree (qt1 qt2 : Qt.Env)
        (self : _PintValidator) (input : string) (pos : Z) :
  @PYQT_QSTRING_API_1 qt1 = true ->
  @PYQT_QSTRING_API_1 qt2 = false ->
  exists st,
    @validate pint qt1 self input pos = Ok (Tuple2 st pos) /\
    @validate pint qt2 self input pos = Ok (Tuple3 st input pos).
Proof.
  intros H1 H2.
  assert (exists st, _validate self input pos = Ok (st, input, pos)) as [st Hst].
  { destruct (Quantity_of_str input) as [q|e] eqn:E.
    - eexists. exact (PintValidatorProps._validate_parsed self input pos q E).
    - eexists. exact (PintValidatorProps._validate_unparsed self input pos e E). }
  exists st. unfold validate, _validate_oldQt. now rewrite H1, H2, Hst.
Qed.

End Props.

Lemma no_limits_accepts_witness :
  @validate Demo.pint Demo.qt_api2 (@new Demo.pint) "1000000 km" 0
  = Ok (Tuple3 Acceptable "1000000 km" 0).
Proof.
  exact (@no_limits_accepts Demo.pint Demo.qt_api2 "1000000 km" 0
           (Demo.f 1000000, "km"%string) eq_refl).
Defined.

Lemma validate_api_agree_witness :
  exists st,
    @validate Demo.pint Demo.qt_api1 Examples.v0_100 "150" 2 = Ok (Tuple2 st 2) /\
    @validate Demo.pint Demo.qt_api2 Examples.v0_100 "150" 2 = Ok (Tuple3 st "150" 2).
Proof.
  exact (@validate_api_agree Demo.pint Demo.qt_api1 Demo.qt_api2 Examples.v0_100 "150" 2
           eq_refl eq_refl).
Defined.

End PintValidatorMoreProps.

(** ** More on [TaurusValueLineEdit]: ranges, alarms and events *)

Module ValueLineEditMoreProps.
Import Qt Pint Taurus PintValidator TaurusValueLineEdit ValueLineEditMore FloatFacts.

Section Props.
Context {pint : Pint.API} {qt : Qt.Env} {taurus : Taurus.Model}.

(** X4: a widget as [__init__] leaves it has no validator and infinite
    bounds: no value whose [float] is a number (not NaN) is out of range,
    no finite value is in alarm, while an infinite one is. *)
Theorem fresh_widget_flags_nothing (base : widget) (v : value) (x : float) :
  float_ v = Ok x ->
  validator (__init__ base) = None /\
  (is_nan x = false -> _outOfRange (__init__ base) v = Ok false) /\
  ((exists s, x = S754_zero s) \/ (exists s m e, x = S754_finite s m e) ->
   _inAlarm (__init__ base) v = Ok false) /\
  ((exists s, x = S754_infinity s) -> _inAlarm (__init__ base) v = Ok true).
Proof.
  intros Hx. split; [ reflexivity | ].
  unfold _outOfRange, _inAlarm, within, strictly_between. cbn. rewrite Hx. cbn.
  repeat split.
  - intros Hn. destruct x as [s|s| |s m e]; try discriminate; try reflexivity;
      destruct s; reflexivity.
  - intros [[s ->]|(s & m & e & ->)]; [ reflexivity | destruct s; reflexivity ].
  - intros [s ->]. destruct s; reflexivity.
Qed.

(** X5: with a validator installed, a value whose string does not parse
    as a quantity is out of range (the [Intermediate] answer is not
    [Acceptable]), and [updateStyle] paints it gray. *)
Theorem unparsed_is_out_of_range (self : widget) (val : _PintValidator) (v : value) (e : exn) :
  validator self = Some val ->
  Quantity_of_str (str_ v) = Raise e ->
  _outOfRange self v = Ok true /\
  (getValue self = Ok v ->
   updateStyle self =
   (Ok tt, setStyleSheet (style_format "gray" "normal") (record Base_updateStyle self))).
Proof.
  intros Hval Hq.
  assert (_outOfRange self v = Ok true) as Ho.
  { unfold _outOfRange. rewrite Hval.
    rewrite (PintValidatorProps.validate_of__validate val (str_ v) 0 Intermediate
               (PintValidatorProps._validate_unparsed val (str_ v) 0 e Hq)).
    cbn. now rewrite PintValidatorProps.item0_returned. }
  split; [ exact Ho | ].
  intros Hv. unfold updateStyle. run_M.
  now rewrite StyleProps.getValue_record, Hv, StyleProps._outOfRange_record, Ho.
Qed.

(** X6: an event that is not [Config] changes no field: it is only handed
    to the base class.  A [Config] event on a widget without model object
    raises [AttributeError] before anything is stored, and the base class
    is not called. *)
Theorem handleEvent_other (self : widget) (evt_type : TaurusEventType) (evt_value : EventValue) :
  (evt_type <> Config ->
   handleEvent evt_type evt_value self =
   (Ok tt, record (Base_handleEvent evt_type evt_value) self))
  /\
  (getModelObj self = None ->
   handleEvent Config evt_value self = (Raise AttributeError, self)).
Proof.
  split.
  - intros Hne. unfold handleEvent. run_M.
    destruct evt_type; try reflexivity. now elim Hne.
  - intros Hm. unfold handleEvent. run_M. cbn. now rewrite Hm.
Qed.

(** The widget a [Config] event leaves behind, for a numeric and for any
    other data type. *)
Lemma handleEvent_Config_numeric (self : widget) (evt_value : EventValue) (attr : ModelObj) :
  getModelObj self = Some attr ->
  is_Integer_or_Float (type evt_value) = true ->
  handleEvent Config evt_value self =
  (Ok tt,
   record (Base_handleEvent Config evt_value)
     (record (debug "_PintValidator set with limits=[%f,%f]"
                    [fst (range attr); snd (range attr)])
        (setValidator
           (Some (setTop (setBottom new (fst (range attr))) (snd (range attr))))
           (set_limit (range attr) (set_alarm (alarm attr) self))))).
Proof.
  intros Hm Ht. unfold handleEvent, _updateValidator. run_M. cbn.
  rewrite Hm, Ht. reflexivity.
Qed.

Lemma handleEvent_Config_other (self : widget) (evt_value : EventValue) (attr : ModelObj) :
  getModelObj self = Some attr ->
  is_Integer_or_Float (type evt_value) = false ->
  handleEvent Config evt_value self =
  (Ok tt,
   record (Base_handleEvent Config evt_value)
     (record (debug "Validator disabled" [])
        (setValidator None (set_limit (range attr) (set_alarm (alarm attr) self))))).
Proof.
  intros Hm Ht. unfold handleEvent, _updateValidator. run_M. cbn.
  rewrite Hm, Ht. reflexivity.
Qed.

(** X7: after a [Config] event of type [Integer] or [Float], a value
    whose string parses as the quantity [q] is within range exactly when
    both [q < Quantity(min)] and [q > Quantity(max)] are false, [min] and
    [max] being the attribute's range; a comparison that is true or
    raises puts it out of range. *)
Theorem outOfRange_after_numeric_Config
        (self : widget) (evt_value : EventValue) (attr : ModelObj) (v : value) (q : Quantity) :
  getModelObj self = Some attr ->
  type evt_value = Integer \/ type evt_value = Taurus.Float ->
  Quantity_of_str (str_ v) = Ok q ->
  exists b,
    _outOfRange (snd (handleEvent Config evt_value self)) v = Ok b /\
    (b = false <->
     lt q (Quantity_of_float (fst (range attr))) = Ok false /\
     gt q (Quantity_of_float (snd (range attr))) = Ok false).
Proof.
  intros Hm Ht Hq.
  rewrite (handleEvent_Config_numeric self evt_value attr Hm)
    by (destruct Ht as [-> | ->]; reflexivity).
  unfold _outOfRange. cbn [snd]. cbn [validator record setValidator].
  set (val := setTop (setBottom new (fst (range attr))) (snd (range attr))).
  rewrite (PintValidatorProps.validate_of__validate val (str_ v) 0 _
             (PintValidatorProps._validate_parsed val (str_ v) 0 q Hq)).
  cbn [Py.bind]. rewrite PintValidatorProps.item0_returned.
  eexists. split; [ reflexivity | ].
  unfold rejects, val. cbn [bottom top setTop setBottom _top _bottom new].
  destruct (lt q (Quantity_of_float (fst (range attr)))) as [[|]|e1];
    destruct (gt q (Quantity_of_float (snd (range attr)))) as [[|]|e2];
    cbn; split; try discriminate; try reflexivity; try tauto;
    intros [H1 H2]; discriminate.
Qed.

(** X8: after a [Config] event of any other type the validator is gone
    and the range test falls back to the floats just stored: a value is
    out of range exactly when its [float] is not within the attribute's
    range interval. *)
Theorem outOfRange_after_other_Config
        (self : widget) (evt_value : EventValue) (attr : ModelObj) (v : value) (x : float) :
  getModelObj self = Some attr ->
  type evt_value <> Integer -> type evt_value <> Taurus.Float ->
  float_ v = Ok x ->
  validator (snd (handleEvent Config evt_value self)) = None /\
  _outOfRange (snd (handleEvent Config evt_value self)) v =
  Ok (negb (float_le (fst (range attr)) x && float_le x (snd (range attr)))).
Proof.
  intros Hm H1 H2 Hx.
  rewrite (handleEvent_Config_other self evt_value attr Hm)
    by (destruct (type evt_value); [ now elim H1 | now elim H2 | reflexivity ]).
  split; [ reflexivity | ].
  unfold _outOfRange, within. cbn. now rewrite Hx.
Qed.

End Props.

Lemma fresh_widget_flags_nothing_witness :
  @_outOfRange Demo.pint Demo.qt_api2 Demo.model (__init__ (Examples.w0 "7")) (Demo.VInt 1000000)
  = Ok false /\
  _inAlarm (__init__ (Examples.w0 "7")) (Demo.VInt 1000000) = Ok false.
Proof.
  pose proof (@fresh_widget_flags_nothing Demo.pint Demo.qt_api2 Demo.model
                (Examples.w0 "7") (Demo.VInt 1000000) (Demo.f 1000000) eq_refl)
    as (_ & Hr & Ha & _).
  split; [ exact (Hr eq_refl) | ].
  apply Ha. right. do 3 eexists. reflexivity.
Defined.

(** A widget with the validator of limits 0 and 100 installed. *)
Lemma unparsed_is_out_of_range_witness :
  @_outOfRange Demo.pint Demo.qt_api2 Demo.model
    (setValidator (Some Examples.v0_100) (Examples.w0 "volts")) Demo.VNone = Ok true.
Proof.
  exact (proj1 (@unparsed_is_out_of_range Demo.pint Demo.qt_api2 Demo.model
                  (setValidator (Some Examples.v0_100) (Examples.w0 "volts"))
                  Examples.v0_100 Demo.VNone (OtherError "UndefinedUnitError")
                  eq_refl eq_refl)).
Defined.

Lemma handleEvent_other_witness :
  @handleEvent Demo.pint Demo.model Change {| type := Integer |} (Examples.w0 "5")
  = (Ok tt, record (Base_handleEvent Change {| type := Integer |}) (Examples.w0 "5")).
Proof.
  refine (proj1 (@handleEvent_other Demo.pint Demo.model (Examples.w0 "5") Change
                   {| type := Integer |}) _).
  discriminate.
Defined.

Lemma outOfRange_after_numeric_Config_witness :
  exists b,
    @_outOfRange Demo.pint Demo.qt_api2 Demo.model
      (snd (@handleEvent Demo.pint Demo.model Config {| type := Taurus.Float |}
              (__init__ (Examples.w0 "5"))))
      (Demo.VInt 101) = Ok b /\
    (b = false <->
     Demo.q_lt (Demo.f 101, EmptyString) (Demo.f 0, EmptyString) = Ok false /\
     Demo.q_gt (Demo.f 101, EmptyString) (Demo.f 100, EmptyString) = Ok false).
Proof.
  exact (@outOfRange_after_numeric_Config Demo.pint Demo.qt_api2 Demo.model
           (__init__ (Examples.w0 "5")) {| type := Taurus.Float |} Demo.attr0 (Demo.VInt 101)
           (Demo.f 101, EmptyString) eq_refl (or_intror eq_refl) eq_refl).
Defined.

Lemma outOfRange_after_other_Config_witness :
  @_outOfRange Demo.pint Demo.qt_api2 Demo.model
    (snd (@handleEvent Demo.pint Demo.model Config {| type := Other "String" |}
            (setValidator (Some Examples.v0_100) (Examples.w0 "5"))))
    (Demo.VInt 101) = Ok true.
Proof.
  refine (proj2 (@outOfRange_after_other_Config Demo.pint Demo.qt_api2 Demo.model
                   (setValidator (Some Examples.v0_100) (Examples.w0 "5"))
                   {| type := Other "String" |} Demo.attr0 (Demo.VInt 101) (Demo.f 101)
                   eq_refl _ _ eq_refl)); discriminate.
Defined.

End ValueLineEditMoreProps.

(** ** More on the wheel and key handlers, [setValue] and [updateStyle] *)

Module EventMoreProps.
Import Qt Pint Taurus PintValidator TaurusValueLineEdit ValueLineEditMore Str.







Section Props.
Context {pint : Pint.API} {qt : Qt.Env} {taurus : Taurus.Model}.

(** X9: a wheel event is left to [QLineEdit] - not accepted, the text
    untouched - whenever wheel events are disabled, the widget is
    read-only, there is no model object, or the model is not numeric; in
    particular after [resetEnableWheelEvent]. *)
Theorem wheelEvent_delegated (self : widget) (evt : QWheelEvent) :
  (_enableWheelEvent self = false \/ isReadOnly self = true \/
   getModelObj self = None \/
   (exists model, getModelObj self = Some model /\ isNumeric model = false) ->
   wheelEvent evt self = (Ok tt, record (QLineEdit_wheelEvent evt) self))
  /\
  wheelEvent evt (resetEnableWheelEvent self) =
  (Ok tt, record (QLineEdit_wheelEvent evt) (resetEnableWheelEvent self)).
Proof.
  split; [ | reflexivity ].
  intros H. unfold wheelEvent, getEnableWheelEvent. run_M.
  destruct (_enableWheelEvent self); [ | reflexivity ].
  destruct (isReadOnly self); [ reflexivity | ]. cbn [negb orb].
  destruct H as [H|[H|[H|(m & Hm & Hn)]]]; try discriminate.
  - now rewrite H.
  - now rewrite Hm, Hn.
Qed.

(** X10: Return and Enter are always handed to [QLineEdit] and then
    accepted, whatever the widget's state; on a writable widget with a
    numeric model every key other than Return, Enter, Up and Down is
    handed to [QLineEdit] and not accepted. *)
Theorem keyPressEvent_other_keys (self : widget) (evt : QKeyEvent) :
  (key evt = Key_Return \/ key evt = Key_Enter ->
   keyPressEvent evt self =
   (Ok tt, record QKeyEvent_accept (record (QLineEdit_keyPressEvent evt) self)))
  /\
  (key evt <> Key_Return -> key evt <> Key_Enter ->
   key evt <> Key_Up -> key evt <> Key_Down ->
   keyPressEvent evt self = (Ok tt, record (QLineEdit_keyPressEvent evt) self)).
Proof.
  split.
  - intros [H|H]; unfold keyPressEvent; rewrite H; reflexivity.
  - intros Hr He Hu Hd. unfold keyPressEvent. run_M.
    apply Z.eqb_neq in Hr, He, Hu, Hd. rewrite Hr, He, Hu, Hd. cbn [orb].
    destruct (isReadOnly self); [ reflexivity | ].
    destruct (getModelObj self) as [m|]; [ | reflexivity ].
    now destruct (isNumeric m).
Qed.



(** X12: when the text does not encode ([getValue] is [None]) and adding
    to [None] raises, a wheel step on a writable numeric widget raises
    that exception after the event was accepted, and the text stays. *)
Theorem wheel_step_on_unencodable_text
        (self : widget) (model : ModelObj) (evt : QWheelEvent) (e e' : exn) :
  _enableWheelEvent self = true -> isReadOnly self = false ->
  getModelObj self = Some model -> isNumeric model = true ->
  encode model (text self) = Raise e ->
  (forall n, add None_ n = Raise e') ->
  wheelEvent evt self = (Raise e', record QWheelEvent_accept self).
Proof.
  intros Hw Hro Hm Hn He Hadd.
  unfold wheelEvent, getEnableWheelEvent, _stepBy. run_M.
  rewrite Hw, Hro, Hm, Hn. cbn [negb orb].
  unfold getValue, getattr_encode. cbn. rewrite Hm. cbn. rewrite He. cbn.
  now rewrite Hadd.
Qed.


(** The style [updateStyle] picks depends on the text, the model, the
    validator, the bounds and the pending flag only. *)
Lemma updateStyle_same_inputs (a b : widget) :
  same_but_style a b ->
  fst (updateStyle a) = fst (updateStyle b) /\
  styleSheet (snd (updateStyle a)) = styleSheet (snd (updateStyle b)).
Proof.
  intros (Ht & _ & Hv & Hm & _ & Hp & _ & Ha1 & Ha2 & Hl1 & Hl2).
  assert (getValue a = getValue b) as Eg
      by (unfold getValue; now rewrite Ht, Hm).
  assert (forall v, _outOfRange a v = _outOfRange b v) as Eo
      by (intros v; unfold _outOfRange; now rewrite Hv, Hl1, Hl2).
  assert (forall v, _inAlarm a v = _inAlarm b v) as Ea
      by (intros v; unfold _inAlarm; now rewrite Ha1, Ha2).
  destruct (ValueLineEditProps.getValue_total b) as [v Gv].
  destruct (ValueLineEditProps._outOfRange_total b v) as [o Go].
  destruct (ValueLineEditProps._inAlarm_total b v) as [al Ga].
  unfold updateStyle. run_M.
  rewrite !StyleProps.getValue_record, Eg, Gv.
  rewrite !StyleProps._outOfRange_record, Eo, Go.
  destruct o; [ split; reflexivity | ].
  rewrite !StyleProps._inAlarm_record, Ea, Ga.
  change (hasPendingOperations (record Base_updateStyle a)) with (hasPendingOperations a).
  change (hasPendingOperations (record Base_updateStyle b)) with (hasPendingOperations b).
  rewrite Hp.
  destruct al, (hasPendingOperations b); split; reflexivity.
Qed.

Lemma updateStyle_same_but_style (self : widget) :
  same_but_style self (snd (updateStyle self)).
Proof.
  unfold updateStyle. run_M.
  destruct (getValue _) as [v|e]; [ | now repeat split ].
  destruct (_outOfRange _ v) as [o|e]; [ | now repeat split ].
  destruct o; [ now repeat split | ].
  destruct (_inAlarm _ v) as [al|e]; [ | now repeat split ].
  destruct al; destruct (hasPendingOperations _); now repeat split.
Qed.

(** X14: [updateStyle] changes nothing but the style sheet and the call
    log, and running it a second time gives the same style sheet. *)
Theorem updateStyle_idempotent (self : widget) :
  same_but_style self (snd (updateStyle self)) /\
  styleSheet (snd (updateStyle (snd (updateStyle self)))) =
  styleSheet (snd (updateStyle self)).
Proof.
  split; [ apply updateStyle_same_but_style | ].
  symmetry. apply updateStyle_same_inputs. apply updateStyle_same_but_style.
Qed.

End Props.

Lemma wheelEvent_delegated_witness :
  @wheelEvent Demo.pint Demo.model Examples.ctrl_alt_notch
    (setEnableWheelEvent false (Examples.w0 "5"))
  = (Ok tt, record (QLineEdit_wheelEvent Examples.ctrl_alt_notch)
              (setEnableWheelEvent false (Examples.w0 "5"))).
Proof.
  refine (proj1 (@wheelEvent_delegated Demo.pint Demo.model
                   (setEnableWheelEvent false (Examples.w0 "5")) Examples.ctrl_alt_notch) _).
  left. reflexivity.
Defined.

Lemma keyPressEvent_other_keys_witness :
  @keyPressEvent Demo.pint Demo.model {| key := Key_Return; key_modifiers := 0 |}
    (Examples.w0 "5")
  = (Ok tt, record QKeyEvent_accept
              (record (QLineEdit_keyPressEvent {| key := Key_Return; key_modifiers := 0 |})
                 (Examples.w0 "5"))) /\
  @keyPressEvent Demo.pint Demo.model {| key := 65; key_modifiers := 0 |} (Examples.w0 "5")
  = (Ok tt, record (QLineEdit_keyPressEvent {| key := 65; key_modifiers := 0 |})
              (Examples.w0 "5")).
Proof.
  split.
  - refine (proj1 (@keyPressEvent_other_keys Demo.pint Demo.model (Examples.w0 "5")
                     {| key := Key_Return; key_modifiers := 0 |}) _).
    left. reflexivity.
  - refine (proj2 (@keyPressEvent_other_keys Demo.pint Demo.model (Examples.w0 "5")
                     {| key := 65; key_modifiers := 0 |}) _ _ _ _); discriminate.
Defined.

Lemma wheel_step_on_unencodable_text_witness :
  @wheelEvent Demo.pint Demo.model Examples.ctrl_alt_notch (Examples.w0 "volts")
  = (Raise TypeError, record QWheelEvent_accept (Examples.w0 "volts")).
Proof.
  refine (@wheel_step_on_unencodable_text Demo.pint Demo.model (Examples.w0 "volts")
            Demo.attr0 Examples.ctrl_alt_notch ValueError TypeError
            eq_refl eq_refl eq_refl eq_refl eq_refl _).
  intros n. reflexivity.
Defined.

End EventMoreProps.

(** ** [__decimalDigits] *)

Module DecimalDigitsProps.
Import Str ValueLineEditMore.

Lemma last_char_app (s : string) (c : ascii) :
  last_char (s ++ String c EmptyString) = Ok c.
Proof.
  induction s as [|a s IH]; [ reflexivity | ].
  cbn [append]. destruct s as [|b s']; [ reflexivity | exact IH ].
Qed.

Lemma but_last_app (s : string) (c : ascii) :
  but_last (s ++ String c EmptyString) = s.
Proof.
  induction s as [|a s IH]; [ reflexivity | ].
  cbn [append]. destruct s as [|b s']; [ reflexivity | ].
  change (String a (but_last (String b s' ++ String c EmptyString)) = String a (String b s')).
  now rewrite IH.
Qed.

Lemma contains_app (c : ascii) (a b : string) :
  contains c (a ++ b) = contains c a || contains c b.
Proof.
  induction a as [|x a IH]; cbn; [ reflexivity | ].
  now rewrite IH, orb_assoc.
Qed.

Lemma split_absent (c : ascii) (d : string) :
  contains c d = false -> split c d = [d].
Proof.
  induction d as [|a d IH]; cbn; [ reflexivity | ].
  intros H. apply orb_false_iff in H. destruct H as [Ha Hd].
  now rewrite Ha, (IH Hd).
Qed.

(** The last piece of a split is what follows the last separator. *)
Lemma split_last_piece (c : ascii) (pre d : string) :
  contains c d = false ->
  last_item (split c (pre ++ String c d)) = Ok d.
Proof.
  intros Hd.
  assert (exists h l, split c (pre ++ String c d) = h :: l ++ [d]) as (h & l & ->).
  { induction pre as [|a pre (h & l & IH)]; cbn.
    - rewrite Ascii.eqb_refl, (split_absent c d Hd). now exists EmptyString, [].
    - destruct (Ascii.eqb a c).
      + rewrite IH. now exists EmptyString, (h :: l).
      + rewrite IH. now exists (String a h), l. }
  unfold last_item. cbn [rev]. rewrite rev_app_distr. reflexivity.
Qed.

Lemma conversion_letter (c : ascii) :
  existsb (String.eqb (lower (String c EmptyString))) ["f"%string; "g"%string] = true <->
  (c = "f" \/ c = "F" \/ c = "g" \/ c = "G")%char.
Proof.
  destruct c as [b0 b1 b2 b3 b4 b5 b6 b7].
  destruct b0, b1, b2, b3, b4, b5, b6, b7; cbn; split; intros H;
    try discriminate H; try reflexivity;
    try (destruct H as [H|[H|[H|H]]]; discriminate H);
    first [ now left | now right; left | now right; right; left | now right; right; right ].
Qed.

Section Props.
Variable int_ : string -> result Z.

(** X15: [__decimalDigits] never raises.  It gives [None] for the empty
    format, for a format that does not end in f, F, g or G, and for one
    without a dot; for [pre + '.' + digits + letter] with no dot in
    [digits] it gives [int(digits)], and [None] when that [int] raises
    (as on ['%.f']). *)
Theorem decimalDigits_cases (fmt : string) :
  (exists r, __decimalDigits int_ fmt = Ok r) /\
  (fmt = EmptyString -> __decimalDigits int_ fmt = Ok None) /\
  (forall c, last_char fmt = Ok c ->
     (c <> "f" /\ c <> "F" /\ c <> "g" /\ c <> "G")%char ->
     __decimalDigits int_ fmt = Ok None) /\
  (contains "." fmt = false -> __decimalDigits int_ fmt = Ok None) /\
  (forall pre digits c,
     fmt = (pre ++ String "." (digits ++ String c EmptyString))%string ->
     (c = "f" \/ c = "F" \/ c = "g" \/ c = "G")%char ->
     contains "." digits = false ->
     __decimalDigits int_ fmt =
     Ok (match int_ digits with Ok n => Some n | Raise _ => None end)).
Proof.
  split; [ | split; [ | split; [ | split ] ] ].
  - unfold __decimalDigits. destruct (try_except _ _) eqn:E; [ now eexists | ].
    unfold try_except in E. destruct (Py.bind _ _); discriminate.
  - now intros ->.
  - intros c Hc Hne. unfold __decimalDigits. rewrite Hc. cbn [Py.bind].
    destruct (existsb _ _) eqn:E; [ | reflexivity ].
    apply conversion_letter in E. exfalso. tauto.
  - intros Hdot. unfold __decimalDigits.
    destruct (last_char fmt) as [c|e]; [ | reflexivity ].
    cbn [Py.bind]. now rewrite Hdot, andb_false_r.
  - intros pre digits c -> Hc Hd. unfold __decimalDigits.
    replace (pre ++ String "." (digits ++ String c EmptyString))%string
      with ((pre ++ String "." digits) ++ String c EmptyString)%string.
    2:{ clear. induction pre as [|a pre IH]; cbn; [ reflexivity | now rewrite IH ]. }
    rewrite last_char_app, but_last_app. cbn [Py.bind].
    apply conversion_letter in Hc. rewrite Hc.
    rewrite !contains_app. cbn [contains]. rewrite Ascii.eqb_refl.
    rewrite orb_true_r. cbn [andb orb].
    rewrite (split_last_piece "." pre digits Hd). cbn [Py.bind].
    now destruct (int_ digits).
Qed.

End Props.

Lemma decimalDigits_cases_witness :
  __decimalDigits MoreExamples.int_of_digits "%5.2f" = Ok (Some 2%Z) /\
  __decimalDigits MoreExamples.int_of_digits "%.f" = Ok None /\
  __decimalDigits MoreExamples.int_of_digits "%d" = Ok None.
Proof.
  split; [ | split ].
  - exact (proj2 (proj2 (proj2 (proj2 (decimalDigits_cases MoreExamples.int_of_digits "%5.2f"))))
                 "%5"%string "2"%string "f"%char eq_refl (or_introl eq_refl) eq_refl).
  - exact (proj2 (proj2 (proj2 (proj2 (decimalDigits_cases MoreExamples.int_of_digits "%.f"))))
                 "%"%string EmptyString "f"%char eq_refl (or_introl eq_refl) eq_refl).
  - refine (proj1 (proj2 (proj2 (decimalDigits_cases MoreExamples.int_of_digits "%d")))
                  "d"%char eq_refl _).
    repeat split; discriminate.
Defined.

End DecimalDigitsProps.

(** ** More on [TaurusConfigLineEdit] *)

Module ConfigLineEditMoreProps.
Import Taurus.

Lemma lower_ascii_idempotent (a : ascii) : lower_ascii (lower_ascii a) = lower_ascii a.
Proof.
  destruct a as [b0 b1 b2 b3 b4 b5 b6 b7].
  destruct b0, b1, b2, b3, b4, b5, b6, b7; reflexivity.
Qed.

Lemma lower_ascii_separator (a : ascii) :
  Ascii.eqb (lower_ascii a) "=" = Ascii.eqb a "=".
Proof.
  destruct a as [b0 b1 b2 b3 b4 b5 b6 b7].
  destruct b0, b1, b2, b3, b4, b5, b6, b7; reflexivity.
Qed.

Lemma lower_idempotent (s : string) : lower (lower s) = lower s.
Proof.
  induction s as [|a s IH]; cbn; [ reflexivity | ].
  now rewrite lower_ascii_idempotent, IH.
Qed.

Lemma contains_separator_lower (s : string) :
  contains "=" (lower s) = contains "=" s.
Proof.
  induction s as [|a s IH]; cbn; [ reflexivity | ].
  now rewrite lower_ascii_separator, IH.
Qed.

Lemma slice_after_rfind_clean (c : ascii) (s : string) :
  contains c (slice_from (rfind c s + 1) s) = false.
Proof.
  destruct (contains c s) eqn:E.
  - destruct (SetModelProps.last_separator_split c s E) as (pre & post & -> & Hpost).
    now rewrite (SetModelProps.slice_after_last c pre post Hpost).
  - now rewrite (SetModelProps.slice_no_separator c s E).
Qed.

Section Props.
Context {taurus : Taurus.Model}.

(** X16: whatever the model name, the parameter name [setModel] stores
    contains no ['='] and is already lower case; the text and the model
    object are untouched and the inherited [setModel] is called last,
    with the name as given. *)
Theorem setModel_param_clean (self : TaurusConfigLineEdit.widget) (s : string) :
  exists self',
    TaurusConfigLineEdit.setModel s self = Ok self' /\
    contains "=" (TaurusConfigLineEdit._configParam self') = false /\
    lower (TaurusConfigLineEdit._configParam self') = TaurusConfigLineEdit._configParam self' /\
    TaurusConfigLineEdit.text self' = TaurusConfigLineEdit.text self /\
    TaurusConfigLineEdit.getModelObj self' = TaurusConfigLineEdit.getModelObj self /\
    TaurusConfigLineEdit.calls self' =
      TaurusConfigLineEdit.calls self ++ [TaurusConfigLineEdit.Base_setModel s].
Proof.
  eexists. split; [ reflexivity | ]. cbn.
  rewrite contains_separator_lower, slice_after_rfind_clean, lower_idempotent.
  repeat split.
Qed.

End Props.

Import ConfigLineEditMore.

Section MoreProps.
Context {taurus : Taurus.Model} {params : Params}.


(** X18: [handleEvent] (any event) and [valueChanged] raise
    [AttributeError] on a widget without model object, changing nothing -
    although [getValue] itself returns [None] there; with a model object
    they return, having set the style to blue and bold when the value
    differs from the string of the model's parameter and to black and
    normal otherwise. *)
Theorem config_handleEvent (self : widget) :
  (getModelObj self = None ->
   getValue self = Ok None_ /\
   handleEvent self = (Raise AttributeError, self))
  /\
  (forall m, getModelObj self = Some m ->
     exists current,
       getValue self = Ok current /\
       handleEvent self =
       (Ok tt,
        setStyleSheet
          (if ne_str current (str_ (getParam m (_configParam self)))
           then style_format "blue" "bold" else style_format "black" "normal")
          self)).
Proof.
  unfold handleEvent, valueChanged, getValue, getModelObj,
    TaurusConfigLineEdit.getValue, TaurusConfigLineEdit.getattr_encode.
  split.
  - intros ->. cbn. now split.
  - intros m ->. cbn.
    destruct (encode m (TaurusConfigLineEdit.text (core self))) as [cur|e]; cbn.
    + exists cur. split; [ reflexivity | ]. now destruct (ne_str cur _).
    + exists None_. split; [ reflexivity | ]. now destruct (ne_str None_ _).
Qed.

(** X19: [_onEditingFinished] does nothing without [autoApply], even with
    no model object; with [autoApply] it writes: the current text goes to
    the model under the parameter name and the style becomes black and
    normal, or, without model object, [AttributeError] is raised and
    nothing changes. *)
Theorem config_editingFinished (self : widget) :
  (_autoApply self = false -> _onEditingFinished self = (Ok tt, self))
  /\
  (forall m, _autoApply self = true -> getModelObj self = Some m ->
     _onEditingFinished self =
     (Ok tt,
      setStyleSheet (style_format "black" "normal")
        (record (setParam (_configParam self) (text self)) self)))
  /\
  (_autoApply self = true -> getModelObj self = None ->
   _onEditingFinished self = (Raise AttributeError, self)).
Proof.
  unfold _onEditingFinished, writeValue. repeat split.
  - now intros ->.
  - intros m -> ->. reflexivity.
  - intros -> ->. reflexivity.
Qed.

End MoreProps.


Lemma config_handleEvent_witness :
  @handleEvent Demo.model MoreExamples.demo_params (MoreExamples.cw "8" None "unit" false false)
  = (Raise AttributeError, MoreExamples.cw "8" None "unit" false false) /\
  styleSheet (snd (@handleEvent Demo.model MoreExamples.demo_params
                     (MoreExamples.cw "8" (Some Demo.attr0) "unit" false false)))
  = "TaurusConfigLineEdit {color: blue; font-weight: bold}"%string.
Proof.
  split.
  - exact (proj2 (proj1 (@config_handleEvent Demo.model MoreExamples.demo_params
                           (MoreExamples.cw "8" None "unit" false false)) eq_refl)).
  - destruct (proj2 (@config_handleEvent Demo.model MoreExamples.demo_params
                       (MoreExamples.cw "8" (Some Demo.attr0) "unit" false false)) Demo.attr0 eq_refl)
      as (cur & Hcur & Hrun).
    rewrite Hrun. injection Hcur as <-. reflexivity.
Defined.

Lemma config_editingFinished_witness :
  @_onEditingFinished Demo.model (MoreExamples.cw "8" None "unit" false false)
  = (Ok tt, MoreExamples.cw "8" None "unit" false false) /\
  log (snd (@_onEditingFinished Demo.model
              (MoreExamples.cw "8" (Some Demo.attr0) "unit" true false)))
  = [setParam "unit" "8"].
Proof.
  pose proof (@config_editingFinished Demo.model
                (MoreExamples.cw "8" None "unit" false false)) as (H1 & _ & _).
  pose proof (@config_editingFinished Demo.model
                (MoreExamples.cw "8" (Some Demo.attr0) "unit" true false)) as (_ & H2 & _).
  split; [ exact (H1 eq_refl) | ].
  now rewrite (H2 Demo.attr0 eq_refl eq_refl).
Defined.

End ConfigLineEditMoreProps.

(** ** NaN *)

Module NaNProps.
Import Qt Pint Taurus PintValidator TaurusValueLineEdit.

Section Props.
Context {pint : Pint.API} {qt : Qt.Env} {taurus : Taurus.Model}.

(** X20: a value whose [float] is NaN is in alarm whatever the alarm
    bounds, and without a validator it is out of range whatever the
    limits, so [updateStyle] paints it gray. *)
Theorem nan_is_flagged (self : widget) (v : value) :
  float_ v = Ok nan ->
  _inAlarm self v = Ok true /\
  (validator self = None ->
   _outOfRange self v = Ok true /\
   (getValue self = Ok v ->
    styleSheet (snd (updateStyle self)) = style_format "gray" "normal")).
Proof.
  intros Hv.
  assert (forall lo hi, strictly_between lo nan hi = false) as Hs.
  { intros lo hi. unfold strictly_between, float_lt, SFltb.
    now destruct lo as [[]|[]| |[] ? ?]. }
  assert (forall lo hi, within lo nan hi = false) as Hw.
  { intros lo hi. unfold within, float_le, SFleb.
    now destruct lo as [[]|[]| |[] ? ?]. }
  split.
  - unfold _inAlarm. rewrite Hv. cbn. now rewrite Hs.
  - intros Hval.
    assert (_outOfRange self v = Ok true) as Ho.
    { unfold _outOfRange. rewrite Hval, Hv. cbn. now rewrite Hw. }
    split; [ exact Ho | ].
    intros Hg. unfold updateStyle. run_M.
    now rewrite StyleProps.getValue_record, Hg, StyleProps._outOfRange_record, Ho.
Qed.

End Props.

Lemma nan_is_flagged_witness :
  _inAlarm (Examples.w0 "nan") (Demo.VFloat nan) = Ok true /\
  @_outOfRange Demo.pint Demo.qt_api2 Demo.model (Examples.w0 "nan") (Demo.VFloat nan)
  = Ok true.
Proof.
  pose proof (@nan_is_flagged Demo.pint Demo.qt_api2 Demo.model (Examples.w0 "nan")
                (Demo.VFloat nan) eq_refl) as (Ha & Ho).
  split; [ exact Ha | exact (proj1 (Ho eq_refl)) ].
Defined.

End NaNProps.
